(** * prefix-cleaner-safetensors: key normalisation of sharded checkpoints

    A shallow embedding of [src/prefix-cleaner-safetensors.py] and the
    properties of its four components: the inline key normaliser
    ([key.replace("._checkpoint_wrapped_module", "")] guarded by an [in]
    test), the shard rewriter [clean_safetensors_file], the manifest
    rewriter [update_index_json] and the directory orchestrator
    [process_directory].

    The safetensors library, the JSON codec and the file system are external
    to the script; they are the fields of the class [Storage].  The script
    itself is written in a small monad [M] that threads the storage state,
    collects the lines written by [print] and propagates Python
    exceptions. *)

From Stdlib Require Import String Ascii List Bool Arith ZArith Lia DecimalString.
Import ListNotations.
Open Scope list_scope.
Open Scope string_scope.

Set Implicit Arguments.
Set Warnings "-register-all".

(* ================================================================== *)
(** * Part I: definitions                                              *)
(* ================================================================== *)

(** ** Python strings

    Keys are sequences of characters; the marker is pure ASCII, so the byte
    view of [string] is enough for [in] and [replace]. *)

Module PyStr.

(** [sub in s]: some suffix of [s] starts with [sub]. *)
Fixpoint contains (sub s : string) : bool :=
  match s with
  | EmptyString => prefix sub EmptyString
  | String _ s' => prefix sub s || contains sub s'
  end.

(** [s.replace(old, new)] for a non-empty [old]: one pass from the left over
    non-overlapping occurrences.  [skip] counts the characters of the
    occurrence just replaced that are still to be dropped. *)
Fixpoint replace_from (old new : string) (skip : nat) (s : string) : string :=
  match s with
  | EmptyString => EmptyString
  | String c s' =>
      match skip with
      | S n => replace_from old new n s'
      | O =>
          if prefix old s
          then new ++ replace_from old new (pred (String.length old)) s'
          else String c (replace_from old new O s')
      end
  end.

(** With an empty [old], Python puts [new] before every character and at
    the end. *)
Fixpoint interleave (new s : string) : string :=
  match s with
  | EmptyString => new
  | String c s' => new ++ String c (interleave new s')
  end.

Definition replace (old new s : string) : string :=
  match old with
  | EmptyString => interleave new s
  | String _ _ => replace_from old new O s
  end.

(** [s[n:]] *)
Fixpoint drop (n : nat) (s : string) : string :=
  match n, s with
  | O, _ => s
  | S _, EmptyString => EmptyString
  | S n', String _ s' => drop n' s'
  end.

(** [s.endswith(suf)] *)
Definition endswith (suf s : string) : bool :=
  (String.length suf <=? String.length s)%nat
  && (drop (String.length s - String.length suf) s =? suf).

End PyStr.

(** ** The key normaliser *)

Definition marker : string := "._checkpoint_wrapped_module".

(** Lines 51-57 and 106-112: the key under which an entry is stored. *)
Definition normalize (key : string) : string :=
  if PyStr.contains marker key then PyStr.replace marker "" key else key.

(** The marker without its leading dot: the name of the wrapper attribute. *)
Definition marker_name : string := "_checkpoint_wrapped_module".

(** [followed_ok t]: [t] is empty or starts with a dot. *)
Definition followed_ok (t : string) : bool :=
  match t with
  | EmptyString => true
  | String c _ => Ascii.eqb c "."
  end.

(** Every occurrence of the marker in [s] is a whole dotted component: it is
    followed by ["."] or it ends the key.  These are the keys a module
    wrapper produces (the wrapper adds one attribute level to a path). *)
Fixpoint whole_components (s : string) : bool :=
  match s with
  | EmptyString => true
  | String _ s' =>
      (if prefix marker s then followed_ok (PyStr.drop (String.length marker) s) else true)
      && whole_components s'
  end.

(** No dot in [w]. *)
Fixpoint nodot (w : string) : bool :=
  match w with
  | EmptyString => true
  | String c w' => negb (Ascii.eqb c ".") && nodot w'
  end.

(** ** Python dictionaries

    A [dict] keeps insertion order; assigning to a key that is present
    replaces the value where it stands. *)

Section Assoc.
Variables K V : Type.
Variable K_eq_dec : forall x y : K, {x = y} + {x <> y}.

Fixpoint assoc_get (k : K) (d : list (K * V)) : option V :=
  match d with
  | [] => None
  | (k', v) :: d' => if K_eq_dec k k' then Some v else assoc_get k d'
  end.

Fixpoint assoc_set (k : K) (v : V) (d : list (K * V)) : list (K * V) :=
  match d with
  | [] => [(k, v)]
  | (k', v') :: d' =>
      if K_eq_dec k k' then (k, v) :: d' else (k', v') :: assoc_set k v d'
  end.
End Assoc.

Definition pydict (V : Type) : Type := list (string * V).
Definition dict_get {V} (k : string) (d : pydict V) : option V :=
  assoc_get string_dec k d.
Definition dict_set {V} (k : string) (v : V) (d : pydict V) : pydict V :=
  assoc_set string_dec k v d.
Definition dict_keys {V} (d : pydict V) : list string := map fst d.
Definition dict_mem {V} (k : string) (d : pydict V) : bool :=
  match dict_get k d with Some _ => true | None => false end.

(** ** Exceptions *)

Record exn : Type := Exception { exn_class : string; exn_msg : string }.

Inductive result (A : Type) : Type :=
| Ok (a : A)
| Raise (e : exn).
Arguments Ok {A} a.
Arguments Raise {A} e.

(** ** Tensors, container handles, JSON documents, paths *)

Record tensor : Type := Tensor {
  dtype : string;
  shape : list nat;
  payload : list Byte.byte
}.

(** What [safe_open] gives access to: [f.metadata()], [f.keys()],
    [f.get_tensor(key)]. *)
Record handle : Type := Handle {
  h_metadata : option (pydict string);
  h_keys : list string;
  h_get_tensor : string -> result tensor
}.

Inductive json : Type :=
| JNull
| JBool (b : bool)
| JInt (z : Z)
| JFloat (repr : string)
| JStr (s : string)
| JArr (items : list json)
| JObj (fields : pydict json).

Definition type_name (j : json) : string :=
  match j with
  | JNull => "NoneType"
  | JBool _ => "bool"
  | JInt _ => "int"
  | JFloat _ => "float"
  | JStr _ => "str"
  | JArr _ => "list"
  | JObj _ => "dict"
  end.

Definition is_str (k : string) (j : json) : bool :=
  match j with
  | JStr s => String.eqb s k
  | _ => false
  end.

(** [k in j] for a string [k] and a parsed document [j]. *)
Definition py_in (k : string) (j : json) : result bool :=
  match j with
  | JObj fields => Ok (dict_mem k fields)
  | JArr items => Ok (existsb (is_str k) items)
  | JStr s => Ok (PyStr.contains k s)
  | _ => Raise (Exception "TypeError"
                  ("argument of type '" ++ type_name j ++ "' is not iterable"))
  end.

(** [j[k]] for a string [k]. *)
Definition getitem (j : json) (k : string) : result json :=
  match j with
  | JObj fields =>
      match dict_get k fields with
      | Some v => Ok v
      | None => Raise (Exception "KeyError" ("'" ++ k ++ "'"))
      end
  | JArr _ => Raise (Exception "TypeError"
                       "list indices must be integers or slices, not str")
  | JStr _ => Raise (Exception "TypeError"
                       "string indices must be integers, not 'str'")
  | _ => Raise (Exception "TypeError"
                  ("'" ++ type_name j ++ "' object is not subscriptable"))
  end.

(** [j[k] = v] *)
Definition setitem (j : json) (k : string) (v : json) : result json :=
  match j with
  | JObj fields => Ok (JObj (dict_set k v fields))
  | _ => Raise (Exception "TypeError"
                  ("'" ++ type_name j
                       ++ "' object does not support item assignment"))
  end.

(** [j.items()] *)
Definition items (j : json) : result (list (string * json)) :=
  match j with
  | JObj fields => Ok fields
  | _ => Raise (Exception "AttributeError"
                  ("'" ++ type_name j ++ "' object has no attribute 'items'"))
  end.

(** A path is the list of its components; [str(p)] joins them. *)
Definition path : Type := list string.
Definition path_div (p : path) (name : string) : path := (p ++ [name])%list.
Definition path_str (p : path) : string := String.concat "/" p.
Definition path_eq_dec : forall p q : path, {p = q} + {p <> q} :=
  list_eq_dec string_dec.

Definition nat_str (n : nat) : string :=
  NilZero.string_of_uint (Nat.to_uint n).

(** ** The external collaborators *)

Class Storage : Type := {
  FS : Type;
  (** [safe_open(path, framework="pt", device="cpu")] *)
  safe_open : path -> FS -> result handle;
  (** [save_file(tensors, path, metadata=metadata)] *)
  save_file : pydict tensor -> path -> pydict string -> FS -> result unit * FS;
  (** [os.path.exists], [Path.exists] *)
  path_exists : path -> FS -> bool;
  (** [open(path, 'r')] followed by [json.load] *)
  json_load : path -> FS -> result json;
  (** [open(path, 'w')] followed by [json.dump(..., indent=2)] *)
  json_dump : json -> path -> FS -> result unit * FS;
  (** [list(dir.glob("*.safetensors"))] *)
  glob_safetensors : path -> FS -> list path
}.

(** ** The monad of the script: storage state, printed lines, exceptions *)

Section Script.
Context {S : Storage}.

Definition M (A : Type) : Type := FS -> result A * FS * list string.

Definition ret {A} (a : A) : M A := fun s => (Ok a, s, []).

Definition bind {A B} (m : M A) (f : A -> M B) : M B :=
  fun s =>
    match m s with
    | (Ok a, s1, o1) => let '(r, s2, o2) := f a s1 in (r, s2, (o1 ++ o2)%list)
    | (Raise e, s1, o1) => (Raise e, s1, o1)
    end.

(** [try: m  except Exception as e: h e] *)
Definition try_except {A} (m : M A) (h : exn -> M A) : M A :=
  fun s =>
    match m s with
    | (Ok a, s1, o1) => (Ok a, s1, o1)
    | (Raise e, s1, o1) => let '(r, s2, o2) := h e s1 in (r, s2, (o1 ++ o2)%list)
    end.

Definition print (line : string) : M unit := fun s => (Ok tt, s, [line]).

Definition lift {A} (r : result A) : M A := fun s => (r, s, []).

Definition reading {A} (f : FS -> result A) : M A := fun s => (f s, s, []).

Definition query {A} (f : FS -> A) : M A := fun s => (Ok (f s), s, []).

Definition writing (f : FS -> result unit * FS) : M unit :=
  fun s => let '(r, s') := f s in (r, s', []).

Local Notation "x <- m ;; k" := (bind m (fun x => k))
  (at level 61, m at next level, right associativity).
Local Notation "m ;; k" := (bind m (fun _ => k))
  (at level 61, right associativity).

(** *** Shard rewriter *)

(** [f.metadata() or {}] *)
Definition metadata_or_empty (m : option (pydict string)) : pydict string :=
  match m with
  | Some (kv :: d) => kv :: d
  | _ => []
  end.

(** Lines 47-57: the loop over [f.keys()], on the pair
    [(tensors, keys_modified)]. *)
Fixpoint load_tensors (f : handle) (keys : list string)
         (acc : pydict tensor * bool) : M (pydict tensor * bool) :=
  match keys with
  | [] => ret acc
  | key :: rest =>
      tensor <- lift (h_get_tensor f key) ;;
      acc' <- (if PyStr.contains marker key then
                 let new_key := PyStr.replace marker "" key in
                 print ("  Renaming: " ++ key ++ " -> " ++ new_key) ;;
                 ret (dict_set new_key tensor (fst acc), true)
               else
                 ret (dict_set key tensor (fst acc), snd acc)) ;;
      load_tensors f rest acc'
  end.

(** Lines 24-74.  The [return False] of the first handler is the [None]
    of the first block. *)
Definition clean_safetensors_file (file_path : path) : M bool :=
  print ("Processing safetensors file: " ++ path_str file_path) ;;
  loaded <- try_except
              (f <- reading (safe_open file_path) ;;
               let metadata := metadata_or_empty (h_metadata f) in
               acc <- load_tensors f (h_keys f) ([], false) ;;
               ret (Some (metadata, acc)))
              (fun e =>
                 print ("Error reading safetensors file: " ++ exn_msg e) ;;
                 ret None) ;;
  match loaded with
  | None => ret false
  | Some (metadata, (tensors, keys_modified)) =>
      if negb keys_modified then
        print "  No keys needed modification." ;;
        ret false
      else
        try_except
          (writing (save_file tensors file_path metadata) ;;
           print ("  Successfully updated: " ++ path_str file_path) ;;
           ret true)
          (fun e =>
             print ("Error saving safetensors file: " ++ exn_msg e) ;;
             ret false)
  end.

(** *** Manifest rewriter *)

(** Lines 105-112: the loop over [weight_map.items()], on the pair
    [(new_weight_map, modified)]. *)
Fixpoint rewrite_weight_map (entries : list (string * json))
         (acc : pydict json * bool) : M (pydict json * bool) :=
  match entries with
  | [] => ret acc
  | (key, filename) :: rest =>
      acc' <- (if PyStr.contains marker key then
                 let new_key := PyStr.replace marker "" key in
                 print ("  Index: " ++ key ++ " -> " ++ new_key) ;;
                 ret (dict_set new_key filename (fst acc), true)
               else
                 ret (dict_set key filename (fst acc), snd acc)) ;;
      rewrite_weight_map rest acc'
  end.

(** Lines 77-127.  Only the two [try] blocks catch; what the lines between
    them raise leaves the function. *)
Definition update_index_json (index_path : path) : M bool :=
  present <- query (path_exists index_path) ;;
  if negb present then
    print ("Index file not found: " ++ path_str index_path) ;;
    ret false
  else
    print ("Processing index file: " ++ path_str index_path) ;;
    loaded <- try_except
                (d <- reading (json_load index_path) ;; ret (Some d))
                (fun e =>
                   print ("Error reading index file: " ++ exn_msg e) ;;
                   ret None) ;;
    match loaded with
    | None => ret false
    | Some index_data =>
        has_map <- lift (py_in "weight_map" index_data) ;;
        st <- (if has_map : bool then
                 weight_map <- lift (getitem index_data "weight_map") ;;
                 entries <- lift (items weight_map) ;;
                 acc <- rewrite_weight_map entries ([], false) ;;
                 index_data' <- lift (setitem index_data "weight_map"
                                              (JObj (fst acc))) ;;
                 ret (index_data', snd acc)
               else
                 ret (index_data, false)) ;;
        let '(index_data, modified) := st in
        if negb modified then
          print "  No index entries needed modification." ;;
          ret false
        else
          try_except
            (writing (json_dump index_data index_path) ;;
             print ("  Successfully updated: " ++ path_str index_path) ;;
             ret true)
            (fun e =>
               print ("Error saving index file: " ++ exn_msg e) ;;
               ret false)
    end.

(** *** Orchestrator, directory mode *)

(** Lines 152-155. *)
Fixpoint clean_all (files : list path) (any_modified : bool) : M bool :=
  match files with
  | [] => ret any_modified
  | file_path :: rest =>
      modified <- clean_safetensors_file file_path ;;
      clean_all rest (if modified then true else any_modified)
  end.

Definition index_name : string := "model.index.json".

(** Lines 130-162. *)
Definition process_directory (directory : path) : M unit :=
  let dir_path := directory in
  present <- query (path_exists dir_path) ;;
  if negb present then
    print ("Error: Directory does not exist: " ++ path_str directory)
  else
    safetensors_files <- query (glob_safetensors dir_path) ;;
    match safetensors_files with
    | [] => print ("No safetensors files found in: " ++ path_str directory)
    | _ :: _ =>
        print ("Found " ++ nat_str (List.length safetensors_files)
                        ++ " safetensors file(s)") ;;
        any_modified <- clean_all safetensors_files false ;;
        let index_path := path_div dir_path index_name in
        index_present <- (if any_modified : bool
                          then query (path_exists index_path)
                          else ret false) ;;
        if any_modified && index_present then
          update_index_json index_path ;; ret tt
        else if any_modified then
          print "Note: No model.index.json found to update"
        else ret tt
    end.

(** A container of [files] was modified during the run of [clean_all]:
    the shard rewriter returned [True] on it, in the storage left by the
    files before it. *)
Definition modified_in_run (files : list path) (s : FS) : Prop :=
  exists before file_path after,
    files = (before ++ file_path :: after)%list /\
    fst (fst (clean_safetensors_file file_path
                (snd (fst (clean_all before false s))))) = Ok true.

(** The first line [update_index_json] prints tells that it was entered. *)
Definition index_banner (line : string) : bool :=
  prefix "Processing index file: " line || prefix "Index file not found: " line.

Definition manifest_rewriter_ran (out : list string) : Prop :=
  exists line, In line out /\ index_banner line = true.

(** No line of [out] is the first line of [update_index_json]. *)
Definition quiet (out : list string) : Prop :=
  Forall (fun line => index_banner line = false) out.

(** *** The loops and the rewriters without their output *)

Definition has_marker (key : string) : bool := PyStr.contains marker key.

(** The mapping either loop builds from [entries] on top of [d]. *)
Definition renamed {V} (entries : list (string * V)) (d : pydict V) : pydict V :=
  fold_left (fun d kv => dict_set (normalize (fst kv)) (snd kv) d) entries d.

(** The calls of [f.get_tensor], in order, up to the first failure. *)
Fixpoint read_all (f : handle) (keys : list string)
  : result (list (string * tensor)) :=
  match keys with
  | [] => Ok []
  | key :: rest =>
      match h_get_tensor f key with
      | Raise e => Raise e
      | Ok t =>
          match read_all f rest with
          | Raise e => Raise e
          | Ok entries => Ok ((key, t) :: entries)
          end
      end
  end.

(** Return value and storage left by [clean_safetensors_file]. *)
Definition shard_outcome (file_path : path) (s : FS) : bool * FS :=
  match safe_open file_path s with
  | Raise _ => (false, s)
  | Ok f =>
      match read_all f (h_keys f) with
      | Raise _ => (false, s)
      | Ok entries =>
          if existsb has_marker (h_keys f) then
            match save_file (renamed entries []) file_path
                            (metadata_or_empty (h_metadata f)) s with
            | (Ok _, s') => (true, s')
            | (Raise _, s') => (false, s')
            end
          else (false, s)
      end
  end.

(** Result and storage left by [update_index_json] on a document it could
    load. *)
Definition document_outcome (index_path : path) (index_data : json) (s : FS)
  : result bool * FS :=
  match py_in "weight_map" index_data with
  | Raise e => (Raise e, s)
  | Ok false => (Ok false, s)
  | Ok true =>
      match getitem index_data "weight_map" with
      | Raise e => (Raise e, s)
      | Ok weight_map =>
          match items weight_map with
          | Raise e => (Raise e, s)
          | Ok entries =>
              match setitem index_data "weight_map"
                            (JObj (renamed entries [])) with
              | Raise e => (Raise e, s)
              | Ok index_data' =>
                  if existsb (fun kv => has_marker (fst kv)) entries then
                    match json_dump index_data' index_path s with
                    | (Ok _, s') => (Ok true, s')
                    | (Raise _, s') => (Ok false, s')
                    end
                  else (Ok false, s)
              end
          end
      end
  end.

Definition manifest_outcome (index_path : path) (s : FS) : result bool * FS :=
  if path_exists index_path s then
    match json_load index_path s with
    | Raise _ => (Ok false, s)
    | Ok index_data => document_outcome index_path index_data s
    end
  else (Ok false, s).

(** Flag and storage left by the loop over the shards. *)
Fixpoint shards_outcome (files : list path) (s : FS) : bool * FS :=
  match files with
  | [] => (false, s)
  | file_path :: rest =>
      let '(modified, s1) := shard_outcome file_path s in
      let '(any_modified, s2) := shards_outcome rest s1 in
      (modified || any_modified, s2)
  end.

Definition directory_outcome (directory : path) (s : FS) : result unit * FS :=
  if path_exists directory s then
    let '(any_modified, s1) := shards_outcome (glob_safetensors directory s) s in
    let index_path := path_div directory index_name in
    if any_modified && path_exists index_path s1 then
      (match fst (manifest_outcome index_path s1) with
       | Ok _ => Ok tt
       | Raise e => Raise e
       end, snd (manifest_outcome index_path s1))
    else (Ok tt, s1)
  else (Ok tt, s).

End Script.

(** ** What the script relies on from its collaborators

    Reading back what was written, writes that stay within their file, and
    a glob that returns children of the directory with the right suffix. *)

Unset Implicit Arguments.

Class StorageLaws (S : Storage) : Prop := {
  save_then_open :
    forall d p m s s',
      save_file d p m s = (Ok tt, s') ->
      exists h,
        safe_open p s' = Ok h /\
        h_metadata h = Some m /\
        (forall k, In k (h_keys h) <-> dict_mem k d = true) /\
        (forall k v, dict_get k d = Some v -> h_get_tensor h k = Ok v);
  save_elsewhere :
    forall d p m s r s' q,
      save_file d p m s = (r, s') -> q <> p ->
      json_load q s' = json_load q s /\ path_exists q s' = path_exists q s;
  dump_then_load :
    forall j p s s',
      json_dump j p s = (Ok tt, s') -> json_load p s' = Ok j;
  glob_children :
    forall dir s p,
      In p (glob_safetensors dir s) ->
      exists name,
        p = path_div dir name /\ PyStr.endswith ".safetensors" name = true
}.


(** ** An in-memory storage

    Files are shards, manifests or unreadable; a file can be writable or
    read-only (a write fails before it touches the file). *)

Set Implicit Arguments.

Module Mem.

Inductive node : Type :=
| Shard (metadata : option (pydict string)) (tensors : pydict tensor)
| Manifest (doc : json)
| Broken.

Inductive wmode : Type := Writable | ReadOnly.

Record fs : Type := Fs {
  files : list (path * (node * wmode));
  dirs : list path
}.

Definition lookup (p : path) (s : fs) : option (node * wmode) :=
  assoc_get path_eq_dec p (files s).

Definition store (p : path) (n : node) (m : wmode) (s : fs) : fs :=
  Fs (assoc_set path_eq_dec p (n, m) (files s)) (dirs s).

Definition handle_of (metadata : option (pydict string))
           (tensors : pydict tensor) : handle :=
  Handle metadata (dict_keys tensors)
    (fun k => match dict_get k tensors with
              | Some t => Ok t
              | None => Raise (Exception "SafetensorError"
                                 ("File does not contain tensor " ++ k))
              end).

Definition no_such_file (p : path) : exn :=
  Exception "FileNotFoundError"
    ("[Errno 2] No such file or directory: '" ++ path_str p ++ "'").

Definition open_shard (p : path) (s : fs) : result handle :=
  match lookup p s with
  | Some (Shard metadata tensors, _) => Ok (handle_of metadata tensors)
  | Some _ => Raise (Exception "SafetensorError"
                       "Error while deserializing header: InvalidHeader")
  | None => Raise (no_such_file p)
  end.

Definition write (p : path) (n : node) (s : fs) : result unit * fs :=
  match lookup p s with
  | Some (_, ReadOnly) =>
      (Raise (Exception "PermissionError"
                ("[Errno 13] Permission denied: '" ++ path_str p ++ "'")), s)
  | _ => (Ok tt, store p n Writable s)
  end.

Definition exists_ (p : path) (s : fs) : bool :=
  match lookup p s with
  | Some _ => true
  | None => if in_dec path_eq_dec p (dirs s) then true else false
  end.

Definition load (p : path) (s : fs) : result json :=
  match lookup p s with
  | Some (Manifest doc, _) => Ok doc
  | Some _ => Raise (Exception "JSONDecodeError"
                       "Expecting value: line 1 column 1 (char 0)")
  | None => Raise (no_such_file p)
  end.

Definition is_shard_of (dir p : path) : bool :=
  match p with
  | [] => false
  | _ :: _ =>
      (if path_eq_dec (removelast p) dir then true else false)
      && PyStr.endswith ".safetensors" (last p "")
  end.

Definition glob (dir : path) (s : fs) : list path :=
  filter (is_shard_of dir) (map fst (files s)).

#[export] Instance storage : Storage := {|
  FS := fs;
  safe_open := open_shard;
  save_file := fun tensors p metadata => write p (Shard (Some metadata) tensors);
  path_exists := exists_;
  json_load := load;
  json_dump := fun doc p => write p (Manifest doc);
  glob_safetensors := glob
|}.

End Mem.

(** [True] when the write returned, [False] when it raised. *)
Definition succeeded (r : result unit) : bool :=
  match r with
  | Ok _ => true
  | Raise _ => false
  end.

(** ** Sample checkpoints *)

Module Sample.
Import Mem.

Definition T1 : tensor := Tensor "F32" [2] [Byte.x00; Byte.x00; Byte.x80; Byte.x3f;
                                            Byte.x00; Byte.x00; Byte.x00; Byte.x40].
Definition T2 : tensor := Tensor "I8" [1; 3] [Byte.x01; Byte.x02; Byte.x03].

Definition dir : path := ["ckpt"].
Definition shard1 : path := ["ckpt"; "model-00001-of-00002.safetensors"].
Definition shard2 : path := ["ckpt"; "model-00002-of-00002.safetensors"].
Definition index : path := ["ckpt"; "model.index.json"].

Definition meta : pydict string := [("format", "pt")].

(** A key in which removing the inner occurrence puts an outer one
    together. *)
Definition nested_key : string :=
  "._checkpoint_wrapped._checkpoint_wrapped_module_module".

Definition wrapped_key : string := "layer.0._checkpoint_wrapped_module.weight".

(** Scenario A: one wrapped key, one plain key. *)
Definition wrapped_tensors : pydict tensor :=
  [(wrapped_key, T1); ("layer.1.weight", T2)].

(** Scenario B: nothing to rename. *)
Definition plain_tensors : pydict tensor := [("a.weight", T1)].

(** Two keys with the same normal form. *)
Definition colliding_tensors : pydict tensor :=
  [("x._checkpoint_wrapped_module", T1); ("x", T2)].

(** A key that is the marker itself. *)
Definition marker_tensors : pydict tensor := [(marker, T1); ("b", T2)].

Definition weight_map : pydict json :=
  [("layer.0._checkpoint_wrapped_module.weight",
    JStr "model-00001-of-00002.safetensors");
   ("a.weight", JStr "model-00002-of-00002.safetensors")].

Definition manifest : json :=
  JObj [("metadata", JObj [("total_size", JInt 11)]);
        ("weight_map", JObj weight_map)].

Definition plain_manifest : json :=
  JObj [("weight_map",
         JObj [("a.weight", JStr "model-00002-of-00002.safetensors")])].

Definition colliding_manifest : json :=
  JObj [("weight_map",
         JObj [("x._checkpoint_wrapped_module", JStr "first.safetensors");
               ("x", JStr "second.safetensors")])].


(** A checkpoint directory: a shard to rewrite, a shard to keep, the
    manifest. *)
Definition checkpoint : fs :=
  Fs [(shard1, (Shard (Some meta) wrapped_tensors, Writable));
      (shard2, (Shard None plain_tensors, Writable));
      (index, (Manifest manifest, Writable))]
     [dir].

(** The same directory when nothing needs renaming. *)
Definition clean_checkpoint : fs :=
  Fs [(shard2, (Shard None plain_tensors, Writable));
      (index, (Manifest plain_manifest, Writable))]
     [dir].

Definition colliding_checkpoint : fs :=
  Fs [(shard1, (Shard (Some meta) colliding_tensors, Writable));
      (index, (Manifest colliding_manifest, Writable))]
     [dir].

Definition marker_checkpoint : fs :=
  Fs [(shard1, (Shard None marker_tensors, Writable))] [dir].




End Sample.

(** ** The entry point

    [pathlib] answers what kind of path the argument is.  [Path.suffix] is
    kept as a field, since its treatment of names made of dots differs
    between releases of the library; the script only compares it with
    [".safetensors"]. *)

Class PathLib (S : Storage) : Type := {
  (** [path.is_file()] *)
  is_file : path -> FS -> bool;
  (** [path.is_dir()] *)
  is_dir : path -> FS -> bool;
  (** [path.suffix] *)
  suffix : path -> string
}.

(** [path.parent] *)
Definition parent (p : path) : path := removelast p.

(** The status with which the interpreter ends: [sys.exit(1)] and an
    exception that nobody caught both give 1. *)
Definition exit_status (r : result unit) : nat :=
  match r with
  | Ok _ => 0
  | Raise _ => 1
  end.

Definition system_exit (code : nat) : exn :=
  Exception "SystemExit" (nat_str code).

Section Main.
Context {S : Storage} {P : PathLib S}.

Local Notation "x <- m ;; k" := (bind m (fun x => k))
  (at level 61, m at next level, right associativity).
Local Notation "m ;; k" := (bind m (fun _ => k))
  (at level 61, right associativity).

(** [sys.exit(code)] *)
Definition sys_exit (code : nat) : M unit := lift (Raise (system_exit code)).

(** Lines 165-199, from the parsed argument [args.path] on. *)
Definition main (arg : path) : M unit :=
  let path := arg in
  present <- query (path_exists path) ;;
  (if negb present then
     print ("Error: Path does not exist: " ++ path_str arg) ;;
     sys_exit 1
   else ret tt) ;;
  file <- query (is_file path) ;;
  (if file && String.eqb (suffix path) ".safetensors" then
     clean_safetensors_file path ;;
     let index_path := path_div (parent path) index_name in
     index_present <- query (path_exists index_path) ;;
     if index_present then update_index_json index_path ;; ret tt else ret tt
   else
     directory <- query (is_dir path) ;;
     if directory then process_directory path
     else
       print ("Error: Path must be a .safetensors file or directory: "
                ++ path_str arg) ;;
       sys_exit 1) ;;
  print "Processing complete!".

(** The argument is something [main] works on. *)
Definition supported (arg : path) (s : FS) : bool :=
  path_exists arg s
  && ((is_file arg s && String.eqb (suffix arg) ".safetensors") || is_dir arg s).

End Main.

(** What the script relies on from [Path.suffix]: a path with the suffix
    [".safetensors"] has a last component that ends with it. *)
Unset Implicit Arguments.

Class PathLaws (S : Storage) (P : PathLib S) : Prop := {
  suffix_name :
    forall p,
      suffix p = ".safetensors" ->
      exists dir name,
        p = path_div dir name /\ PyStr.endswith ".safetensors" name = true
}.

Set Implicit Arguments.

(** ** Lines of the output *)

(** The line with which the shard rewriter starts on [file_path]. *)
Definition visit_line (file_path : path) : string :=
  "Processing safetensors file: " ++ path_str file_path.

Definition is_visit (line : string) : bool :=
  prefix "Processing safetensors file: " line.

(** The lines the shard rewriter prints after the first one. *)
Definition detail_line (line : string) : bool :=
  prefix "  " line || prefix "Error " line.

(** The pair stored for an entry when no other entry has its normal form. *)
Definition rename_entry {V} (kv : string * V) : string * V :=
  (normalize (fst kv), snd kv).

Definition is_object (j : json) : bool :=
  match j with
  | JObj _ => true
  | _ => false
  end.

(** ** Paths of the in-memory storage *)

Module MemPaths.

(** [name.rfind('.')] *)
Fixpoint rfind_dot (name : string) : option nat :=
  match name with
  | EmptyString => None
  | String c rest =>
      match rfind_dot rest with
      | Some i => Some (S i)
      | None => if Ascii.eqb c "." then Some 0 else None
      end
  end.

(** The suffix of a file name: from the last dot on, unless that dot is the
    first or the last character. *)
Definition name_suffix (name : string) : string :=
  match rfind_dot name with
  | Some i =>
      if (0 <? i)%nat && (i <? String.length name - 1)%nat
      then PyStr.drop i name
      else EmptyString
  | None => EmptyString
  end.

Definition suffix_of (p : path) : string := name_suffix (last p "").

Definition file_at (p : path) (s : Mem.fs) : bool :=
  match Mem.lookup p s with
  | Some _ => true
  | None => false
  end.

Definition dir_at (p : path) (s : Mem.fs) : bool :=
  if in_dec path_eq_dec p (Mem.dirs s) then true else false.

#[export] Instance pathlib : PathLib Mem.storage :=
  @Build_PathLib Mem.storage file_at dir_at suffix_of.

End MemPaths.

(** ** More sample checkpoints *)

Module Sample2.
Import Mem.

(** A manifest whose [weight_map] is not an object. *)
Definition null_map_manifest : json :=
  JObj [("metadata", JObj []); ("weight_map", JNull)].

Definition null_map_checkpoint : fs :=
  Fs [(Sample.shard1, (Shard (Some Sample.meta) Sample.wrapped_tensors, Writable));
      (Sample.index, (Manifest null_map_manifest, Writable))]
     [Sample.dir].

(** A directory without shards, with a manifest that has wrapped keys. *)
Definition shardless_checkpoint : fs :=
  Fs [(Sample.index, (Manifest Sample.manifest, Writable))] [Sample.dir].

(** The manifest cannot be written. *)
Definition locked_manifest_checkpoint : fs :=
  Fs [(Sample.index, (Manifest Sample.manifest, ReadOnly))] [Sample.dir].

(** The manifest file holds no JSON. *)
Definition broken_manifest_checkpoint : fs :=
  Fs [(Sample.index, (Broken, Writable))] [Sample.dir].

(** A shard already normalised, next to a manifest that is not. *)
Definition stale_manifest_checkpoint : fs :=
  Fs [(Sample.shard2, (Shard None Sample.plain_tensors, Writable));
      (Sample.index, (Manifest Sample.manifest, Writable))]
     [Sample.dir].

Definition notes : path := ["ckpt"; "README.md"].

Definition notes_checkpoint : fs :=
  Fs [(notes, (Broken, Writable))] [Sample.dir].

End Sample2.

(* ================================================================== *)
(** * Part II: properties                                              *)
(* ================================================================== *)

Unset Implicit Arguments.

(** ** [in] and [replace] *)

Section StringFacts.

Lemma prefix_append (a t : string) : prefix a (a ++ t) = true.
Proof.
  induction a as [|c a IH]; simpl.
  - destruct t; reflexivity.
  - destruct (ascii_dec c c) as [_|n]; [exact IH | now elim n].
Qed.

Lemma prefix_split (a s : string) :
  prefix a s = true -> exists t, s = a ++ t.
Proof.
  revert s; induction a as [|c a IH]; intros s H.
  - exists s; reflexivity.
  - destruct s as [|c' s]; simpl in H; [discriminate|].
    destruct (ascii_dec c c') as [<-|]; [|discriminate].
    destruct (IH _ H) as [t ->]. exists t; reflexivity.
Qed.

Lemma length_append (a t : string) :
  String.length (a ++ t) = String.length a + String.length t.
Proof. induction a; simpl; congruence. Qed.

Lemma drop_append (a t : string) : PyStr.drop (String.length a) (a ++ t) = t.
Proof. induction a; simpl; [destruct t; reflexivity | assumption]. Qed.

(** Once an occurrence is found, its remaining characters are dropped. *)
Lemma replace_from_skip (old new x s : string) :
  PyStr.replace_from old new (String.length x) (x ++ s)
  = PyStr.replace_from old new 0 s.
Proof. induction x; simpl; [destruct s; reflexivity | assumption]. Qed.

(** The two equations of the one-pass scan. *)
Lemma replace_hit (c : ascii) (old new t : string) :
  PyStr.replace (String c old) new (String c old ++ t)
  = new ++ PyStr.replace (String c old) new t.
Proof.
  unfold PyStr.replace.
  change (String c old ++ t) with (String c (old ++ t)).
  cbn [PyStr.replace_from].
  change (String c (old ++ t)) with (String c old ++ t).
  rewrite prefix_append. cbn [String.length pred].
  now rewrite replace_from_skip.
Qed.

Lemma replace_miss (a : ascii) (old new : string) (c : ascii) (s : string) :
  prefix (String a old) (String c s) = false ->
  PyStr.replace (String a old) new (String c s)
  = String c (PyStr.replace (String a old) new s).
Proof.
  intros H. unfold PyStr.replace. cbn [PyStr.replace_from].
  now rewrite H.
Qed.

Lemma contains_append (sub a t : string) :
  PyStr.contains sub t = true -> PyStr.contains sub (a ++ t) = true.
Proof.
  intros H; induction a as [|c a IH]; simpl; [exact H|].
  rewrite IH. apply orb_true_r.
Qed.

(** A string without occurrence is left as it is. *)
Lemma replace_absent (a : ascii) (old new s : string) :
  PyStr.contains (String a old) s = false ->
  PyStr.replace (String a old) new s = s.
Proof.
  induction s as [|c s IH]; intros H.
  - reflexivity.
  - cbn [PyStr.contains] in H. apply orb_false_iff in H as [H1 H2].
    rewrite replace_miss by exact H1. now rewrite IH.
Qed.

End StringFacts.

(** ** The scan of [replace] for the marker *)

Section MarkerScan.

Lemma replace_marker_nil : PyStr.replace marker "" "" = "".
Proof. reflexivity. Qed.

Lemma replace_marker_hit (t : string) :
  PyStr.replace marker "" (marker ++ t) = PyStr.replace marker "" t.
Proof. unfold marker. now rewrite replace_hit. Qed.

Lemma replace_marker_miss (c : ascii) (s : string) :
  prefix marker (String c s) = false ->
  PyStr.replace marker "" (String c s) = String c (PyStr.replace marker "" s).
Proof. unfold marker. apply replace_miss. Qed.

(** Induction along the scan: an occurrence at the head is skipped as a
    whole, any other character is kept. *)
Lemma scan_ind (P : string -> Prop) :
  P "" ->
  (forall t, P t -> P (marker ++ t)) ->
  (forall c s, prefix marker (String c s) = false -> P s -> P (String c s)) ->
  forall s, P s.
Proof.
  intros Hnil Hhit Hmiss s.
  remember (String.length s) as n eqn:Hn.
  revert s Hn. induction n as [n IH] using lt_wf_ind. intros s Hn.
  destruct s as [|c s]; [exact Hnil|].
  destruct (prefix marker (String c s)) eqn:Hp.
  - destruct (prefix_split _ _ Hp) as [t Ht]. rewrite Ht.
    apply Hhit. apply (IH (String.length t)); [|reflexivity].
    rewrite Hn, Ht, length_append. simpl. lia.
  - apply Hmiss; [exact Hp|].
    apply (IH (String.length s)); [|reflexivity].
    rewrite Hn. simpl. lia.
Qed.

Lemma whole_components_tail (c : ascii) (s : string) :
  whole_components (String c s) = true -> whole_components s = true.
Proof.
  cbn [whole_components]. intros H. now apply andb_true_iff in H as [_ H].
Qed.

Lemma whole_components_append (a t : string) :
  whole_components (a ++ t) = true -> whole_components t = true.
Proof.
  induction a as [|c a IH]; simpl append; intros H; [exact H|].
  apply IH. exact (whole_components_tail _ _ H).
Qed.

Lemma whole_components_hit (t : string) :
  whole_components (marker ++ t) = true ->
  followed_ok t = true /\ whole_components t = true.
Proof.
  intros H. split; [|exact (whole_components_append _ _ H)].
  change (marker ++ t) with (String "." (marker_name ++ t)) in H.
  cbn [whole_components] in H.
  change (String "." (marker_name ++ t)) with (marker ++ t) in H.
  rewrite prefix_append, drop_append in H.
  now apply andb_true_iff in H as [H _].
Qed.

(** After an occurrence that is a whole component, the output of the scan
    is again empty or starts with a dot. *)
Lemma replace_followed_ok (t : string) :
  whole_components t = true -> followed_ok t = true ->
  followed_ok (PyStr.replace marker "" t) = true.
Proof.
  induction t as [| t IH | c s Hp IH] using scan_ind; intros Hw Hf.
  - reflexivity.
  - rewrite replace_marker_hit.
    destruct (whole_components_hit _ Hw) as [Hf' Hw']. now apply IH.
  - rewrite replace_marker_miss by exact Hp. exact Hf.
Qed.

(** A dot-free word that does not start the input does not start the
    output either: text joined across a removed component has a dot in
    between or nothing after it. *)
Lemma replace_no_new_prefix (s : string) :
  whole_components s = true ->
  forall w, w <> "" -> nodot w = true ->
    prefix w s = false -> prefix w (PyStr.replace marker "" s) = false.
Proof.
  induction s as [| t _ | c s Hp IH] using scan_ind; intros Hw w Hne Hd Hpre.
  - exact Hpre.
  - rewrite replace_marker_hit.
    destruct (whole_components_hit _ Hw) as [Hf Hw'].
    pose proof (replace_followed_ok _ Hw' Hf) as Hr.
    destruct w as [|w0 w]; [now elim Hne|].
    destruct (PyStr.replace marker "" t) as [|r0 r]; [reflexivity|].
    simpl in Hr, Hd |- *. apply Ascii.eqb_eq in Hr. subst r0.
    destruct (ascii_dec w0 ".") as [->|]; [discriminate | reflexivity].
  - rewrite replace_marker_miss by exact Hp.
    destruct w as [|w0 w]; [now elim Hne|].
    simpl in Hpre |- *.
    destruct (ascii_dec w0 c) as [_|]; [|reflexivity].
    simpl in Hd. apply andb_true_iff in Hd as [_ Hd].
    apply IH; [exact (whole_components_tail _ _ Hw) | | exact Hd | exact Hpre].
    intros ->. destruct s; discriminate.
Qed.

(** One pass removes the marker from a key whose occurrences are whole
    components. *)
Lemma replace_marker_free (s : string) :
  whole_components s = true ->
  PyStr.contains marker (PyStr.replace marker "" s) = false.
Proof.
  induction s as [| t IH | c s Hp IH] using scan_ind; intros Hw.
  - reflexivity.
  - rewrite replace_marker_hit. apply IH.
    exact (whole_components_append _ _ Hw).
  - rewrite replace_marker_miss by exact Hp.
    pose proof (whole_components_tail _ _ Hw) as Hw'.
    cbn [PyStr.contains]. rewrite (IH Hw'), orb_false_r.
    change marker with (String "." marker_name) in Hp |- *.
    cbn [prefix] in Hp |- *.
    destruct (ascii_dec "." c) as [_|]; [|reflexivity].
    apply replace_no_new_prefix; [exact Hw' | discriminate | reflexivity | exact Hp].
Qed.

Lemma normalize_replace (k : string) : normalize k = PyStr.replace marker "" k.
Proof.
  unfold normalize. destruct (PyStr.contains marker k) eqn:H; [reflexivity|].
  symmetry. unfold marker in *. now apply replace_absent.
Qed.

Lemma normalize_absent (k : string) :
  PyStr.contains marker k = false -> normalize k = k.
Proof. unfold normalize. now intros ->. Qed.

Lemma normalize_marker_free (k : string) :
  whole_components k = true -> PyStr.contains marker (normalize k) = false.
Proof. rewrite normalize_replace. apply replace_marker_free. Qed.

(** Removing an occurrence shortens the key. *)
Lemma replace_marker_shorter (s : string) :
  String.length (PyStr.replace marker "" s) <= String.length s
  /\ (PyStr.contains marker s = true ->
      String.length (PyStr.replace marker "" s) < String.length s).
Proof.
  induction s as [| t [IH _] | c s Hp [IH1 IH2]] using scan_ind.
  - split; [apply Nat.le_refl | discriminate].
  - rewrite replace_marker_hit, length_append.
    change (String.length marker) with 27. split; intros; lia.
  - rewrite replace_marker_miss by exact Hp. cbn [String.length PyStr.contains].
    rewrite Hp. cbn [orb]. split; [lia|]. intros H. specialize (IH2 H). lia.
Qed.

(** The keys the normaliser leaves alone are the keys without marker. *)
Lemma normalize_fixed_iff (k : string) :
  normalize k = k <-> PyStr.contains marker k = false.
Proof.
  split; [|apply normalize_absent].
  intros H. destruct (PyStr.contains marker k) eqn:E; [|reflexivity].
  destruct (replace_marker_shorter k) as [_ Hlt]. specialize (Hlt E).
  rewrite <- normalize_replace, H in Hlt. lia.
Qed.

(** A second pass changes nothing exactly when the first pass left no
    marker. *)
Lemma normalize_twice_iff (k : string) :
  normalize (normalize k) = normalize k
  <-> PyStr.contains marker (normalize k) = false.
Proof. apply normalize_fixed_iff. Qed.

End MarkerScan.

(** ** Dictionaries *)

Section AssocFacts.
Variables K V : Type.
Variable dec : forall x y : K, {x = y} + {x <> y}.

Lemma assoc_get_set_same (k : K) (v : V) (d : list (K * V)) :
  assoc_get dec k (assoc_set dec k v d) = Some v.
Proof.
  induction d as [|[k' v'] d IH]; simpl.
  - destruct (dec k k); congruence.
  - destruct (dec k k') as [->|n]; simpl.
    + destruct (dec k' k'); congruence.
    + destruct (dec k k'); congruence.
Qed.

Lemma assoc_get_set_other (k k' : K) (v : V) (d : list (K * V)) :
  k <> k' -> assoc_get dec k' (assoc_set dec k v d) = assoc_get dec k' d.
Proof.
  intros Hne. induction d as [|[k0 v0] d IH]; simpl.
  - destruct (dec k' k); congruence.
  - destruct (dec k k0) as [->|n]; simpl.
    + destruct (dec k' k0); congruence.
    + destruct (dec k' k0); congruence.
Qed.

Lemma assoc_get_In (k : K) (d : list (K * V)) :
  assoc_get dec k d <> None <-> In k (map fst d).
Proof.
  induction d as [|[k0 v0] d IH]; simpl.
  - split; [congruence | tauto].
  - destruct (dec k k0) as [->|n].
    + split; [auto | congruence].
    + rewrite IH. split; [auto | intros [H|H]; congruence].
Qed.

Lemma assoc_get_Some_In (k : K) (v : V) (d : list (K * V)) :
  assoc_get dec k d = Some v -> In (k, v) d.
Proof.
  induction d as [|[k0 v0] d IH]; simpl; [discriminate|].
  destruct (dec k k0) as [->|n]; [intros [= ->]; auto | auto].
Qed.

(** Assigning to a key that is present keeps the order of the keys. *)
Lemma assoc_set_keys (k : K) (v : V) (d : list (K * V)) :
  In k (map fst d) -> map fst (assoc_set dec k v d) = map fst d.
Proof.
  induction d as [|[k0 v0] d IH]; simpl; [tauto|].
  destruct (dec k k0) as [->|n]; simpl; [reflexivity|].
  intros [H|H]; [congruence | now rewrite IH].
Qed.
End AssocFacts.

Section DictFacts.
Context {V : Type}.
Implicit Types (d : pydict V) (k : string) (v : V).

Lemma dict_get_set_same k v d : dict_get k (dict_set k v d) = Some v.
Proof. apply assoc_get_set_same. Qed.

Lemma dict_get_set_other k k' v d :
  k <> k' -> dict_get k' (dict_set k v d) = dict_get k' d.
Proof. apply assoc_get_set_other. Qed.

Lemma dict_mem_keys k d : dict_mem k d = true <-> In k (dict_keys d).
Proof.
  unfold dict_mem, dict_keys, dict_get.
  rewrite <- (assoc_get_In _ _ string_dec).
  destruct (assoc_get string_dec k d); split; congruence.
Qed.

Lemma dict_mem_get k d v : dict_get k d = Some v -> dict_mem k d = true.
Proof. unfold dict_mem. now intros ->. Qed.

Lemma dict_mem_set k k' v d :
  dict_mem k' (dict_set k v d) = (if string_dec k k' then true else dict_mem k' d).
Proof.
  unfold dict_mem. destruct (string_dec k k') as [->|n].
  - now rewrite dict_get_set_same.
  - now rewrite dict_get_set_other.
Qed.

Lemma dict_set_keys k v d :
  dict_mem k d = true -> dict_keys (dict_set k v d) = dict_keys d.
Proof. rewrite dict_mem_keys. apply assoc_set_keys. Qed.
End DictFacts.

(** ** The mapping built by the loops: last write wins *)

Section Renamed.
Context {V : Type}.
Implicit Types (d : pydict V) (entries : list (string * V)).

Lemma renamed_cons (kv : string * V) entries d :
  renamed (kv :: entries) d
  = renamed entries (dict_set (normalize (fst kv)) (snd kv) d).
Proof. reflexivity. Qed.

Lemma renamed_app (before after : list (string * V)) d :
  renamed (before ++ after) d = renamed after (renamed before d).
Proof. apply fold_left_app. Qed.

(** A key that no entry is renamed to keeps what it had. *)
Lemma renamed_keep entries d (k' : string) :
  (forall kv, In kv entries -> normalize (fst kv) <> k') ->
  dict_get k' (renamed entries d) = dict_get k' d.
Proof.
  revert d; induction entries as [|kv entries IH]; intros d H; [reflexivity|].
  rewrite renamed_cons, IH by (intros; apply H; now right).
  apply dict_get_set_other, H. now left.
Qed.

(** The entry processed last for a normalised key is the one stored. *)
Lemma renamed_last before k (v : V) after d :
  (forall kv, In kv after -> normalize (fst kv) <> normalize k) ->
  dict_get (normalize k) (renamed (before ++ (k, v) :: after) d) = Some v.
Proof.
  intros H. rewrite renamed_app, renamed_cons, renamed_keep by exact H.
  apply dict_get_set_same.
Qed.

(** Whatever is stored comes from an entry, under its normalised key. *)
Lemma renamed_source entries d (k' : string) (v : V) :
  dict_get k' (renamed entries d) = Some v ->
  (exists k, In (k, v) entries /\ normalize k = k') \/ dict_get k' d = Some v.
Proof.
  revert d; induction entries as [|[k v0] entries IH]; intros d H; [now right|].
  rewrite renamed_cons in H. destruct (IH _ H) as [(k1 & Hin & Hk1) | Hd].
  - left. exists k1. split; [now right | exact Hk1].
  - cbn [fst snd] in Hd. destruct (string_dec (normalize k) k') as [E|N].
    + rewrite E, dict_get_set_same in Hd. injection Hd as ->.
      left. exists k. split; [now left | exact E].
    + rewrite dict_get_set_other in Hd by exact N. now right.
Qed.

Lemma renamed_mem_mono entries d (k' : string) :
  dict_mem k' d = true -> dict_mem k' (renamed entries d) = true.
Proof.
  revert d; induction entries as [|kv entries IH]; intros d H; [exact H|].
  rewrite renamed_cons. apply IH. rewrite dict_mem_set, H.
  now destruct string_dec.
Qed.

(** Every entry leaves its normalised key in the mapping. *)
Lemma renamed_mem entries d (kv : string * V) :
  In kv entries -> dict_mem (normalize (fst kv)) (renamed entries d) = true.
Proof.
  revert d; induction entries as [|kv0 entries IH]; intros d; [intros []|].
  intros [->|Hin]; rewrite renamed_cons; [|now apply IH].
  apply renamed_mem_mono. rewrite dict_mem_set.
  now destruct string_dec.
Qed.
End Renamed.

(** ** Reading the tensors *)

Section ReadAll.
Variable f : handle.

Lemma read_all_keys keys entries :
  read_all f keys = Ok entries -> map fst entries = keys.
Proof.
  revert entries; induction keys as [|k keys IH]; simpl; intros entries H.
  - now injection H as <-.
  - destruct (h_get_tensor f k) as [t|]; [|discriminate].
    destruct (read_all f keys) as [l|]; [|discriminate].
    injection H as <-. simpl. now rewrite (IH l).
Qed.

Lemma read_all_values keys entries k t :
  read_all f keys = Ok entries -> In (k, t) entries -> h_get_tensor f k = Ok t.
Proof.
  revert entries; induction keys as [|k0 keys IH]; simpl; intros entries H Hin.
  - injection H as <-. destruct Hin.
  - destruct (h_get_tensor f k0) as [t0|] eqn:E; [|discriminate].
    destruct (read_all f keys) as [l|]; [|discriminate].
    injection H as <-. destruct Hin as [[= <- <-]|Hin]; [exact E|].
    now apply (IH l).
Qed.

Lemma read_all_In keys entries k :
  read_all f keys = Ok entries -> In k keys ->
  exists t, In (k, t) entries /\ h_get_tensor f k = Ok t.
Proof.
  intros H Hin. rewrite <- (read_all_keys _ _ H) in Hin.
  apply in_map_iff in Hin as ([k0 t] & <- & Hin).
  exists t. split; [exact Hin | exact (read_all_values _ _ _ _ H Hin)].
Qed.


Lemma read_all_total keys :
  (forall k, In k keys -> exists t, h_get_tensor f k = Ok t) ->
  exists entries, read_all f keys = Ok entries.
Proof.
  induction keys as [|k0 keys IH]; simpl; intros H; [eauto|].
  destruct (H k0 (or_introl eq_refl)) as [t ->].
  destruct IH as [l ->]; eauto.
Qed.
End ReadAll.

(** ** The script, step by step *)

Section Runs.
Context {S : Storage}.

Local Notation "x <- m ;; k" := (bind m (fun x => k))
  (at level 61, m at next level, right associativity).
Local Notation "m ;; k" := (bind m (fun _ => k))
  (at level 61, right associativity).

Lemma quiet_app out1 out2 : quiet out1 -> quiet out2 -> quiet (out1 ++ out2).
Proof. intros; apply Forall_app; now split. Qed.

Lemma quiet_not_ran out : quiet out -> ~ manifest_rewriter_ran out.
Proof.
  intros Hq (line & Hin & Hb).
  unfold quiet in Hq. rewrite Forall_forall in Hq.
  specialize (Hq _ Hin). congruence.
Qed.

Lemma ran_app out1 out2 :
  manifest_rewriter_ran (out1 ++ out2)
  <-> manifest_rewriter_ran out1 \/ manifest_rewriter_ran out2.
Proof.
  unfold manifest_rewriter_ran. split.
  - intros (l & Hin & Hb). apply in_app_iff in Hin as [Hin|Hin]; eauto.
  - intros [(l & Hin & Hb)|(l & Hin & Hb)]; exists l;
      (split; [apply in_app_iff; auto | exact Hb]).
Qed.

Lemma has_marker_normalize key :
  (if has_marker key then PyStr.replace marker "" key else key) = normalize key.
Proof. reflexivity. Qed.

(** The loop of the shard rewriter: it leaves the storage alone and fails
    exactly when a read fails. *)
Lemma load_tensors_run (f : handle) keys acc (s : FS) :
  exists out,
    load_tensors f keys acc s
    = (match read_all f keys with
       | Ok entries => Ok (renamed entries (fst acc),
                           snd acc || existsb has_marker keys)
       | Raise e => Raise e
       end, s, out)
    /\ quiet out.
Proof.
  revert acc; induction keys as [|key keys IH]; intros [d b].
  - exists []. split; [|constructor]. cbn. now rewrite orb_false_r.
  - cbn [load_tensors read_all existsb].
    unfold bind at 1. unfold lift at 1.
    destruct (h_get_tensor f key) as [t|e]; [|exists []; split; [reflexivity|constructor]].
    unfold bind at 1. fold (has_marker key).
    pose proof (has_marker_normalize key) as Hn.
    destruct (has_marker key) eqn:Hm.
    + destruct (IH (dict_set (PyStr.replace marker "" key) t d, true))
        as (out & Hrun & Hq).
      cbn [fst snd] in *. unfold bind, print, ret. rewrite Hrun.
      eexists. split.
      * rewrite Hn. destruct (read_all f keys); cbn; [|reflexivity].
        now rewrite !orb_true_r.
      * repeat (constructor; [reflexivity|]). exact Hq.
    + destruct (IH (dict_set key t d, b)) as (out & Hrun & Hq).
      cbn [fst snd] in *. unfold ret. rewrite Hrun.
      eexists. split.
      * destruct (read_all f keys); cbn; [|reflexivity].
        now rewrite <- Hn.
      * exact Hq.
Qed.

(** The loop of the manifest rewriter never fails. *)
Lemma rewrite_weight_map_run entries acc (s : FS) :
  exists out,
    rewrite_weight_map entries acc s
    = (Ok (renamed entries (fst acc),
           snd acc || existsb (fun kv => has_marker (fst kv)) entries), s, out)
    /\ quiet out.
Proof.
  revert acc; induction entries as [|[key filename] entries IH]; intros [d b].
  - exists []. split; [|constructor]. cbn. now rewrite orb_false_r.
  - cbn [rewrite_weight_map existsb fst snd].
    unfold bind at 1. fold (has_marker key).
    pose proof (has_marker_normalize key) as Hn.
    destruct (has_marker key) eqn:Hm.
    + destruct (IH (dict_set (PyStr.replace marker "" key) filename d, true))
        as (out & Hrun & Hq).
      cbn [fst snd] in *. unfold bind, print, ret. rewrite Hrun.
      eexists. split.
      * rewrite renamed_cons, Hn. cbn. now rewrite !orb_true_r.
      * repeat (constructor; [reflexivity|]). exact Hq.
    + destruct (IH (dict_set key filename d, b)) as (out & Hrun & Hq).
      cbn [fst snd] in *. unfold ret. rewrite Hrun.
      eexists. split.
      * rewrite renamed_cons. cbn [fst snd]. now rewrite <- Hn.
      * exact Hq.
Qed.

Ltac quiet_lines :=
  unfold quiet in *;
  repeat first
    [ apply Forall_nil
    | assumption
    | apply Forall_cons; [reflexivity|]
    | apply Forall_app; split ].

(** The shard rewriter always returns, with the value and the storage of
    [shard_outcome]. *)
Lemma clean_safetensors_file_run (file_path : path) (s : FS) :
  exists out,
    clean_safetensors_file file_path s
    = (Ok (fst (shard_outcome file_path s)),
       snd (shard_outcome file_path s), out)
    /\ quiet out.
Proof.
  unfold clean_safetensors_file, shard_outcome.
  unfold bind at 1. unfold print at 1.
  unfold bind at 1. unfold try_except at 1.
  unfold bind at 1. unfold reading at 1.
  destruct (safe_open file_path s) as [f|e].
  - unfold bind at 1.
    destruct (load_tensors_run f (h_keys f) ([], false) s) as (out & -> & Hq).
    destruct (read_all f (h_keys f)) as [entries|e].
    + cbn [fst snd orb ret].
      destruct (existsb has_marker (h_keys f)); cbn [negb].
      * unfold try_except, bind, writing, print, ret.
        destruct (save_file (renamed entries []) file_path
                    (metadata_or_empty (h_metadata f)) s) as [[[]|e] s'];
          cbn [fst snd]; eexists; (split; [reflexivity | quiet_lines]).
      * unfold bind, print, ret. cbn [fst snd].
        eexists; (split; [reflexivity | quiet_lines]).
    + unfold bind, print, ret. cbn [fst snd].
      eexists; (split; [reflexivity | quiet_lines]).
  - unfold bind, print, ret. cbn [fst snd].
    eexists; (split; [reflexivity | quiet_lines]).
Qed.

Lemma banner_processing (x : string) :
  index_banner ("Processing index file: " ++ x) = true.
Proof. unfold index_banner. now rewrite prefix_append. Qed.

Lemma banner_not_found (x : string) :
  index_banner ("Index file not found: " ++ x) = true.
Proof.
  unfold index_banner. rewrite (prefix_append "Index file not found: " x).
  apply orb_true_r.
Qed.

Lemma ran_first (line : string) (out : list string) :
  index_banner line = true -> manifest_rewriter_ran (line :: out).
Proof. intros H. exists line. split; [now left | exact H]. Qed.

(** The part of [update_index_json] after the document was loaded. *)
Lemma update_document_run (index_path : path) (index_data : json) (s : FS) :
  exists out,
    (has_map <- lift (py_in "weight_map" index_data) ;;
     st <- (if has_map : bool then
              weight_map <- lift (getitem index_data "weight_map") ;;
              entries <- lift (items weight_map) ;;
              acc <- rewrite_weight_map entries ([], false) ;;
              index_data' <- lift (setitem index_data "weight_map"
                                           (JObj (fst acc))) ;;
              ret (index_data', snd acc)
            else
              ret (index_data, false)) ;;
     let '(index_data, modified) := st in
     if negb modified then
       print "  No index entries needed modification." ;;
       ret false
     else
       try_except
         (writing (json_dump index_data index_path) ;;
          print ("  Successfully updated: " ++ path_str index_path) ;;
          ret true)
         (fun e =>
            print ("Error saving index file: " ++ exn_msg e) ;;
            ret false)) s
    = (fst (document_outcome index_path index_data s),
       snd (document_outcome index_path index_data s), out).
Proof.
  unfold document_outcome.
  unfold bind at 1. unfold lift at 1.
  destruct (py_in "weight_map" index_data) as [[|]|e];
    [| cbn; eexists; reflexivity | eexists; reflexivity].
  unfold bind at 1. unfold bind at 1. unfold lift at 1.
  destruct (getitem index_data "weight_map") as [wm|e]; [|eexists; reflexivity].
  unfold bind at 1. unfold lift at 1.
  destruct (items wm) as [entries|e]; [|eexists; reflexivity].
  unfold bind at 1.
  destruct (rewrite_weight_map_run entries ([], false) s) as (out & -> & _).
  cbn [fst snd orb]. unfold bind at 1. unfold lift at 1.
  destruct (setitem index_data "weight_map" (JObj (renamed entries [])))
    as [doc'|e]; [|eexists; reflexivity].
  unfold ret at 1.
  destruct (existsb (fun kv => has_marker (fst kv)) entries); cbn [negb].
  - unfold try_except, bind, writing, print, ret.
    destruct (json_dump doc' index_path s) as [[[]|e] s'];
      cbn [fst snd]; eexists; reflexivity.
  - cbn. eexists; reflexivity.
Qed.

(** The manifest rewriter: its result and storage are those of
    [manifest_outcome], and its first line is always printed. *)
Lemma update_index_json_run (index_path : path) (s : FS) :
  exists out,
    update_index_json index_path s
    = (fst (manifest_outcome index_path s),
       snd (manifest_outcome index_path s), out)
    /\ manifest_rewriter_ran out.
Proof.
  unfold update_index_json, manifest_outcome.
  unfold bind at 1. unfold query at 1.
  destruct (path_exists index_path s); cbn [negb].
  - unfold bind at 1. unfold print at 1.
    unfold bind at 1. unfold try_except at 1.
    unfold bind at 1. unfold reading at 1.
    destruct (json_load index_path s) as [doc|e].
    + unfold ret at 1.
      destruct (update_document_run index_path doc s) as (out & ->).
      eexists. split; [reflexivity|].
      apply ran_first, banner_processing.
    + cbn. eexists. split; [reflexivity|].
      apply ran_first, banner_processing.
  - cbn. eexists. split; [reflexivity|].
    apply ran_first, banner_not_found.
Qed.

(** The loop over the shards. *)
Lemma clean_all_run (files : list path) (any_modified : bool) (s : FS) :
  exists out,
    clean_all files any_modified s
    = (Ok (any_modified || fst (shards_outcome files s)),
       snd (shards_outcome files s), out)
    /\ quiet out.
Proof.
  revert any_modified s; induction files as [|p files IH]; intros b s.
  - exists []. split; [|constructor]. cbn. now rewrite orb_false_r.
  - cbn [clean_all shards_outcome]. unfold bind.
    destruct (clean_safetensors_file_run p s) as (out1 & -> & Hq1).
    destruct (shard_outcome p s) as [m s1]. cbn [fst snd].
    destruct (IH (if m then true else b) s1) as (out2 & -> & Hq2).
    destruct (shards_outcome files s1) as [m' s2]. cbn [fst snd].
    exists (out1 ++ out2)%list. split; [|now apply quiet_app].
    destruct m, b, m'; reflexivity.
Qed.

Lemma shards_outcome_app (before after : list path) (s : FS) :
  shards_outcome (before ++ after) s
  = (fst (shards_outcome before s)
     || fst (shards_outcome after (snd (shards_outcome before s))),
     snd (shards_outcome after (snd (shards_outcome before s)))).
Proof.
  revert s; induction before as [|p before IH]; intros s.
  - cbn. now destruct (shards_outcome after s).
  - cbn [app shards_outcome]. destruct (shard_outcome p s) as [m s1].
    rewrite IH. destruct (shards_outcome before s1) as [m1 s2]. cbn [fst snd].
    now rewrite orb_assoc.
Qed.

(** The flag of the loop is set exactly when some container was
    modified during the run. *)
Lemma modified_in_run_flag (files : list path) (s : FS) :
  modified_in_run files s <-> fst (shards_outcome files s) = true.
Proof.
  unfold modified_in_run. split.
  - intros (before & p & after & -> & H).
    destruct (clean_all_run before false s) as (o1 & E1 & _).
    rewrite E1 in H. cbn [fst snd] in H.
    destruct (clean_safetensors_file_run p (snd (shards_outcome before s)))
      as (o2 & E2 & _).
    rewrite E2 in H. cbn [fst] in H.
    rewrite shards_outcome_app. cbn [fst shards_outcome].
    destruct (shard_outcome p (snd (shards_outcome before s))) as [m s1].
    cbn [fst] in H. injection H as ->.
    destruct (shards_outcome after s1). cbn. apply orb_true_r.
  - revert s; induction files as [|p files IH]; intros s H; [discriminate|].
    cbn [shards_outcome] in H.
    destruct (shard_outcome p s) as [m s1] eqn:Ep.
    destruct (shards_outcome files s1) as [m' s2] eqn:Ef. cbn [fst] in H.
    destruct m.
    + exists [], p, files. split; [reflexivity|].
      change (snd (fst (clean_all [] false s))) with s.
      destruct (clean_safetensors_file_run p s) as (o & -> & _).
      now rewrite Ep.
    + cbn in H. subst m'.
      destruct (IH s1) as (before & q & after & -> & Hq); [now rewrite Ef|].
      exists (p :: before), q, after. split; [reflexivity|].
      cbn [clean_all]. unfold bind at 1.
      destruct (clean_safetensors_file_run p s) as (o & -> & _).
      rewrite Ep. cbn [fst snd].
      destruct (clean_all_run before false s1) as (o1 & E1 & _).
      rewrite E1 in Hq. rewrite E1. exact Hq.
Qed.

(** Directory mode: result, storage, and whether the manifest rewriter
    was entered. *)
Lemma process_directory_run (directory : path) (s : FS) :
  exists out,
    process_directory directory s
    = (fst (directory_outcome directory s),
       snd (directory_outcome directory s), out)
    /\ (manifest_rewriter_ran out <->
        path_exists directory s = true
        /\ fst (shards_outcome (glob_safetensors directory s) s) = true
        /\ path_exists (path_div directory index_name)
             (snd (shards_outcome (glob_safetensors directory s) s)) = true).
Proof.
  unfold process_directory, directory_outcome.
  unfold bind at 1. unfold query at 1.
  destruct (path_exists directory s) eqn:Hdir; cbn [negb].
  2:{ eexists. split; [reflexivity|]. split.
      - intros H. exfalso. revert H. apply quiet_not_ran. quiet_lines.
      - intros [H _]. discriminate. }
  unfold bind at 1. unfold query at 1.
  destruct (glob_safetensors directory s) as [|p files] eqn:Hglob.
  { eexists. split; [reflexivity|]. split.
    - intros H. exfalso. revert H. apply quiet_not_ran. quiet_lines.
    - intros (_ & H & _). discriminate. }
  unfold bind at 1. unfold print at 1.
  unfold bind at 1.
  destruct (clean_all_run (p :: files) false s) as (o1 & -> & Hq1).
  destruct (shards_outcome (p :: files) s) as [any s1].
  cbn [fst snd orb]. unfold bind at 1.
  destruct any.
  - unfold query at 1.
    destruct (path_exists (path_div directory index_name) s1) eqn:Hidx;
      cbn [andb].
    + unfold bind at 1.
      destruct (update_index_json_run (path_div directory index_name) s1)
        as (o2 & -> & Hran).
      destruct (manifest_outcome (path_div directory index_name) s1)
        as [[b|e] s2]; cbn [fst snd];
        (eexists; split; [reflexivity|]; split; [auto|]; intros _;
         destruct Hran as (line & Hin & Hb); exists line;
         split; [|exact Hb]; cbn [app]; right;
         rewrite !in_app_iff; auto).
    + eexists. split; [reflexivity|]. split.
      * intros H. exfalso. revert H. apply quiet_not_ran. quiet_lines.
      * intros (_ & _ & H). discriminate.
  - cbn. eexists. split; [reflexivity|]. split.
    * intros H. exfalso. revert H. apply quiet_not_ran. quiet_lines.
    * intros (_ & H & _). discriminate.
Qed.

End Runs.

(** ** The in-memory storage satisfies the laws *)

Module MemFacts.
Import Mem.

Lemma lookup_store_same p n m s : lookup p (store p n m s) = Some (n, m).
Proof. apply assoc_get_set_same. Qed.

Lemma lookup_store_other p q n m s :
  q <> p -> lookup q (store p n m s) = lookup q s.
Proof. intros H. apply assoc_get_set_other. congruence. Qed.

Lemma write_ok p n s s' :
  write p n s = (Ok tt, s') -> s' = store p n Writable s.
Proof.
  unfold write. destruct (lookup p s) as [[n0 [|]]|]; congruence.
Qed.

Lemma write_elsewhere p n s r s' q :
  write p n s = (r, s') -> q <> p ->
  lookup q s' = lookup q s /\ dirs s' = dirs s.
Proof.
  unfold write. intros H Hq.
  destruct (lookup p s) as [[n0 [|]]|]; injection H as <- <-;
    (split; [|reflexivity]); try reflexivity;
    now apply lookup_store_other.
Qed.

Lemma laws : StorageLaws storage.
Proof.
  split; cbn [FS safe_open save_file path_exists json_load json_dump
              glob_safetensors storage].
  - intros d p m s s' H. apply write_ok in H as ->.
    exists (handle_of (Some m) d). unfold open_shard.
    rewrite lookup_store_same. repeat split.
    + now apply dict_mem_keys.
    + now intros ?%dict_mem_keys.
    + intros k v Hk. cbn. now rewrite Hk.
  - intros d p m s r s' q H Hq.
    destruct (write_elsewhere _ _ _ _ _ _ H Hq) as [Hl Hd].
    unfold load, exists_. now rewrite Hl, Hd.
  - intros j p s s' H. apply write_ok in H as ->.
    unfold load. now rewrite lookup_store_same.
  - intros dir s p Hin. unfold glob in Hin.
    apply filter_In in Hin as [_ Hp]. unfold is_shard_of in Hp.
    destruct p as [|x p]; [discriminate|].
    apply andb_true_iff in Hp as [Hd Hs].
    destruct (path_eq_dec (removelast (x :: p)) dir) as [<-|]; [|discriminate].
    exists (last (x :: p) ""). split; [|exact Hs].
    unfold path_div. apply app_removelast_last. discriminate.
Qed.



End MemFacts.

(** ** The normaliser on sample keys *)

Example normalize_wrapped : normalize Sample.wrapped_key = "layer.0.weight".
Proof. reflexivity. Qed.

Example normalize_plain : normalize "layer.1.weight" = "layer.1.weight".
Proof. reflexivity. Qed.

Example normalize_adjacent :
  normalize "a._checkpoint_wrapped_module._checkpoint_wrapped_module.b" = "a.b".
Proof. reflexivity. Qed.

Example normalize_nested : normalize Sample.nested_key = marker.
Proof. reflexivity. Qed.

(** [whole_components] says what its name says. *)
Lemma whole_components_spec (k : string) :
  whole_components k = true <->
  forall a b, k = a ++ marker ++ b -> followed_ok b = true.
Proof.
  split.
  - intros H a b ->. apply whole_components_append in H.
    now apply whole_components_hit in H.
  - induction k as [|c k IH]; intros H; [reflexivity|].
    cbn [whole_components]. apply andb_true_iff. split.
    + destruct (prefix marker (String c k)) eqn:Hp; [|reflexivity].
      destruct (prefix_split _ _ Hp) as [t Ht]. rewrite Ht.
      rewrite drop_append. apply (H "" t). exact Ht.
    + apply IH. intros a b ->. apply (H (String c a) b). reflexivity.
Qed.

(** ** The scenarios of the specification, on the in-memory storage *)

(** Scenario A: the wrapped key is renamed, the tensors stay. *)
Example scenario_A :
  fst (clean_safetensors_file (S:=Mem.storage) Sample.shard1 Sample.checkpoint)
  = (Ok true,
     Mem.store Sample.shard1
       (Mem.Shard (Some Sample.meta)
          [("layer.0.weight", Sample.T1); ("layer.1.weight", Sample.T2)])
       Mem.Writable Sample.checkpoint).
Proof. reflexivity. Qed.

(** Scenario B: no marker, no write. *)
Example scenario_B :
  clean_safetensors_file (S:=Mem.storage) Sample.shard2 Sample.checkpoint
  = (Ok false, Sample.checkpoint,
     ["Processing safetensors file: ckpt/model-00002-of-00002.safetensors";
      "  No keys needed modification."]%list).
Proof. reflexivity. Qed.

(** Scenario D: one shard of two is rewritten and the manifest follows. *)
Example scenario_D :
  snd (process_directory (S:=Mem.storage) Sample.dir Sample.checkpoint)
  = ["Found 2 safetensors file(s)";
     "Processing safetensors file: ckpt/model-00001-of-00002.safetensors";
     "  Renaming: layer.0._checkpoint_wrapped_module.weight -> layer.0.weight";
     "  Successfully updated: ckpt/model-00001-of-00002.safetensors";
     "Processing safetensors file: ckpt/model-00002-of-00002.safetensors";
     "  No keys needed modification.";
     "Processing index file: ckpt/model.index.json";
     "  Index: layer.0._checkpoint_wrapped_module.weight -> layer.0.weight";
     "  Successfully updated: ckpt/model.index.json"]%list.
Proof. reflexivity. Qed.

(** A document that is not an object: the membership test of line 103
    raises, outside of both [try] blocks. *)
Example scalar_document_raises :
  py_in "weight_map" (JInt 5)
  = Raise (Exception "TypeError" "argument of type 'int' is not iterable").
Proof. reflexivity. Qed.

(* ================================================================== *)
(** * Part III: the claims                                             *)
(* ================================================================== *)

(** ** C1, C2: the key normaliser *)

(** C1, as stated, fails: on [nested_key] the first pass removes the inner
    occurrence and leaves the marker, which a second pass removes. *)
Lemma C1_normalize_not_idempotent :
  normalize Sample.nested_key = marker
  /\ normalize (normalize Sample.nested_key) = ""
  /\ normalize (normalize Sample.nested_key) <> normalize Sample.nested_key.
Proof. repeat split. discriminate. Qed.

(** C1, amended: for every key in which each occurrence of the marker is a
    whole dotted component (followed by a dot or ending the key), normalising
    twice gives the same as normalising once. *)
Theorem C1_normalize_idempotent_on_components (k : string) :
  whole_components k = true ->
  normalize (normalize k) = normalize k.
Proof.
  intros H. apply normalize_absent. now apply normalize_marker_free.
Qed.

Lemma C1_witness :
  whole_components Sample.wrapped_key = true
  /\ normalize (normalize Sample.wrapped_key) = normalize Sample.wrapped_key.
Proof.
  split; [reflexivity|].
  apply (C1_normalize_idempotent_on_components Sample.wrapped_key).
  reflexivity.
Defined.

(** C2, as stated, fails: the normal form of [nested_key] is the marker
    itself. *)
Lemma C2_marker_survives :
  PyStr.contains marker (normalize Sample.nested_key) = true.
Proof. reflexivity. Qed.

(** C2, amended: for every key in which each occurrence of the marker is a
    whole dotted component, the normalised key contains no occurrence of the
    marker. *)
Theorem C2_normalize_marker_free_on_components (k : string) :
  whole_components k = true ->
  PyStr.contains marker (normalize k) = false.
Proof. apply normalize_marker_free. Qed.

Lemma C2_witness :
  whole_components Sample.wrapped_key = true
  /\ PyStr.contains marker (normalize Sample.wrapped_key) = false.
Proof.
  split; [reflexivity|].
  apply (C2_normalize_marker_free_on_components Sample.wrapped_key).
  reflexivity.
Defined.

(** ** Results of the two rewriters *)

Section Outcomes.
Context {S : Storage}.

Lemma clean_outcome (p : path) (s : FS) :
  fst (clean_safetensors_file p s)
  = (Ok (fst (shard_outcome p s)), snd (shard_outcome p s)).
Proof. now destruct (clean_safetensors_file_run p s) as (out & -> & _). Qed.

Lemma update_outcome (p : path) (s : FS) :
  fst (update_index_json p s)
  = (fst (manifest_outcome p s), snd (manifest_outcome p s)).
Proof. now destruct (update_index_json_run p s) as (out & -> & _). Qed.

(** When the loop went through and found a marker, the rewriter hands the
    new mapping to [save_file] and reports what [save_file] reports. *)
Lemma shard_handed_over (p : path) (s : FS) (f : handle) entries :
  safe_open p s = Ok f ->
  read_all f (h_keys f) = Ok entries ->
  existsb has_marker (h_keys f) = true ->
  shard_outcome p s
  = (succeeded (fst (save_file (renamed entries []) p
                               (metadata_or_empty (h_metadata f)) s)),
     snd (save_file (renamed entries []) p
                    (metadata_or_empty (h_metadata f)) s)).
Proof.
  intros Ho Hr Hm. unfold shard_outcome. rewrite Ho, Hr, Hm.
  now destruct save_file as [[[]|e] s'].
Qed.

(** A rewrite that is reported went through every step. *)
Lemma shard_rewritten (p : path) (s : FS) (f : handle) :
  safe_open p s = Ok f ->
  fst (shard_outcome p s) = true ->
  exists entries,
    read_all f (h_keys f) = Ok entries
    /\ existsb has_marker (h_keys f) = true
    /\ save_file (renamed entries []) p (metadata_or_empty (h_metadata f)) s
       = (Ok tt, snd (shard_outcome p s)).
Proof.
  intros Ho. unfold shard_outcome. rewrite Ho.
  destruct (read_all f (h_keys f)) as [entries|e]; [|discriminate].
  destruct (existsb has_marker (h_keys f)); [|discriminate].
  destruct save_file as [[[]|e] s'] eqn:Hs; [|discriminate].
  intros _. exists entries. auto.
Qed.

(** The manifest rewriter on an object whose [weight_map] is an object. *)
Lemma manifest_with_map (p : path) (s : FS) fields (wm : pydict json) :
  dict_get "weight_map" fields = Some (JObj wm) ->
  document_outcome p (JObj fields) s
  = if existsb (fun kv => has_marker (fst kv)) wm then
      (Ok (succeeded
             (fst (json_dump (JObj (dict_set "weight_map"
                                             (JObj (renamed wm [])) fields))
                             p s))),
       snd (json_dump (JObj (dict_set "weight_map"
                                      (JObj (renamed wm [])) fields)) p s))
    else (Ok false, s).
Proof.
  intros Hw. unfold document_outcome, py_in, getitem, dict_mem.
  rewrite Hw. cbn [items setitem].
  destruct (existsb (fun kv => has_marker (fst kv)) wm); [|reflexivity].
  now destruct json_dump as [[[]|e] s'].
Qed.

Lemma metadata_or_empty_idem (m : option (pydict string)) :
  metadata_or_empty (Some (metadata_or_empty m)) = metadata_or_empty m.
Proof. destruct m as [[|kv d]|]; reflexivity. Qed.

Lemma existsb_has_marker_false (keys : list string) :
  (forall k, In k keys -> has_marker k = false) ->
  existsb has_marker keys = false.
Proof.
  intros H. destruct (existsb has_marker keys) eqn:E; [|reflexivity].
  apply existsb_exists in E as (k & Hin & Hk). rewrite (H k Hin) in Hk.
  discriminate.
Qed.

End Outcomes.

(** ** C3: the shard rewriter changes key names only *)

(** C3: when the shard rewriter reports a rewrite of a container, every key
    of the rewritten container is the normal form of an original key and
    holds the tensor (dtype, shape, bytes) that was stored under that
    original key; every original key is represented; and the metadata
    mapping (empty when absent) is the one read before the rewrite. *)
Theorem C3_rewrite_preserves_payloads
        (S : Storage) (L : StorageLaws S) (p : path) (s : FS) (f : handle) :
  safe_open p s = Ok f ->
  fst (fst (clean_safetensors_file p s)) = Ok true ->
  exists f',
    safe_open p (snd (fst (clean_safetensors_file p s))) = Ok f'
    /\ (forall k', In k' (h_keys f') ->
          exists k t, In k (h_keys f) /\ normalize k = k'
                      /\ h_get_tensor f k = Ok t /\ h_get_tensor f' k' = Ok t)
    /\ (forall k, In k (h_keys f) -> In (normalize k) (h_keys f'))
    /\ metadata_or_empty (h_metadata f') = metadata_or_empty (h_metadata f).
Proof.
  intros Ho Ht. rewrite clean_outcome in *. cbn [fst snd] in *.
  injection Ht as Ht.
  destruct (shard_rewritten _ _ _ Ho Ht) as (entries & Hr & _ & Hs).
  destruct (save_then_open _ _ _ _ _ Hs) as (f' & Ho' & Hm' & Hk' & Hg').
  exists f'. split; [exact Ho'|]. split; [|split].
  - intros k' Hin. apply Hk' in Hin. unfold dict_mem in Hin.
    destruct (dict_get k' (renamed entries [])) as [t|] eqn:Hd; [|discriminate].
    destruct (renamed_source _ _ _ _ Hd) as [(k & Hke & Hn)|Hnil];
      [|discriminate].
    exists k, t. repeat split.
    + rewrite <- (read_all_keys _ _ _ Hr). apply in_map_iff.
      now exists (k, t).
    + exact Hn.
    + exact (read_all_values _ _ _ _ _ Hr Hke).
    + now apply Hg'.
  - intros k Hin. destruct (read_all_In _ _ _ _ Hr Hin) as (t & Hke & _).
    apply Hk'. exact (renamed_mem _ [] (k, t) Hke).
  - rewrite Hm'. apply metadata_or_empty_idem.
Qed.

Lemma C3_witness :
  exists f',
    Mem.open_shard Sample.shard1
      (snd (fst (clean_safetensors_file (S:=Mem.storage)
                   Sample.shard1 Sample.checkpoint))) = Ok f'
    /\ (forall k', In k' (h_keys f') ->
          exists k t, In k (dict_keys Sample.wrapped_tensors) /\ normalize k = k'
                      /\ dict_get k Sample.wrapped_tensors = Some t
                      /\ h_get_tensor f' k' = Ok t)
    /\ metadata_or_empty (h_metadata f') = Sample.meta.
Proof.
  destruct (C3_rewrite_preserves_payloads Mem.storage MemFacts.laws
              Sample.shard1 Sample.checkpoint
              (Mem.handle_of (Some Sample.meta) Sample.wrapped_tensors)
              eq_refl eq_refl)
    as (f' & Ho & Hk & _ & Hm).
  exists f'. split; [exact Ho|]. split; [|exact Hm].
  intros k' Hin. destruct (Hk k' Hin) as (k & t & Hin' & Hn & Hg & Hg').
  exists k, t. repeat split; try assumption.
  unfold Mem.handle_of in Hg. cbv beta iota delta [h_get_tensor] in Hg.
  destruct (dict_get k Sample.wrapped_tensors); congruence.
Defined.

(** ** C4: the manifest rewriter changes the keys of [weight_map] only *)

(** C4, as stated, fails when two keys of the mapping have the same normal
    form: the filename of the earlier entry is no longer associated with
    the normal form of its key. *)
Lemma C4_collision_drops_filename :
  dict_get "x._checkpoint_wrapped_module"
           [("x._checkpoint_wrapped_module", JStr "first.safetensors");
            ("x", JStr "second.safetensors")]
  = Some (JStr "first.safetensors")
  /\ normalize "x._checkpoint_wrapped_module" = "x"
  /\ fst (fst (update_index_json (S:=Mem.storage)
                 Sample.index Sample.colliding_checkpoint)) = Ok true
  /\ Mem.load Sample.index
       (snd (fst (update_index_json (S:=Mem.storage)
                    Sample.index Sample.colliding_checkpoint)))
     = Ok (JObj [("weight_map", JObj [("x", JStr "second.safetensors")])]).
Proof. repeat split. Qed.

(** C4, amended: when the manifest rewriter reports a rewrite, the document
    has the same top-level fields in the same order, every field other than
    [weight_map] has its value, and in the new [weight_map] each filename is
    associated with the normal form of its original key unless a later entry
    of the mapping has the same normal form (the later filename is then the
    one kept); nothing else is in the new mapping. *)
Theorem C4_manifest_rewrite_frame
        (S : Storage) (L : StorageLaws S) (p : path) (s : FS)
        (fields wm : pydict json) :
  json_load p s = Ok (JObj fields) ->
  dict_get "weight_map" fields = Some (JObj wm) ->
  fst (fst (update_index_json p s)) = Ok true ->
  exists fields' wm',
    json_load p (snd (fst (update_index_json p s))) = Ok (JObj fields')
    /\ dict_keys fields' = dict_keys fields
    /\ (forall name, name <> "weight_map" ->
          dict_get name fields' = dict_get name fields)
    /\ dict_get "weight_map" fields' = Some (JObj wm')
    /\ (forall before k filename after,
          wm = (before ++ (k, filename) :: after)%list ->
          (forall kv, In kv after -> normalize (fst kv) <> normalize k) ->
          dict_get (normalize k) wm' = Some filename)
    /\ (forall k' filename,
          dict_get k' wm' = Some filename ->
          exists k, In (k, filename) wm /\ normalize k = k').
Proof.
  intros Hl Hw Ht. rewrite update_outcome in *. cbn [fst snd] in *.
  unfold manifest_outcome in *.
  destruct (path_exists p s); [|discriminate].
  rewrite Hl, (manifest_with_map _ _ _ _ Hw) in *.
  destruct (existsb (fun kv => has_marker (fst kv)) wm); [|discriminate].
  cbn [fst snd] in *.
  destruct json_dump as [[[]|e] s'] eqn:Hd; [|discriminate].
  cbn [fst snd]. apply dump_then_load in Hd.
  exists (dict_set "weight_map" (JObj (renamed wm [])) fields), (renamed wm []).
  split; [exact Hd|]. split; [|split; [|split; [|split]]].
  - apply dict_set_keys. exact (dict_mem_get _ _ _ Hw).
  - intros name Hn. apply dict_get_set_other. congruence.
  - apply dict_get_set_same.
  - intros before k filename after -> Hafter. now apply renamed_last.
  - intros k' filename Hg.
    destruct (renamed_source _ _ _ _ Hg) as [H|H]; [exact H | discriminate].
Qed.

Lemma C4_witness :
  exists fields' wm',
    Mem.load Sample.index
      (snd (fst (update_index_json (S:=Mem.storage)
                   Sample.index Sample.checkpoint))) = Ok (JObj fields')
    /\ dict_keys fields' = ["metadata"; "weight_map"]
    /\ dict_get "metadata" fields' = Some (JObj [("total_size", JInt 11)])
    /\ dict_get "weight_map" fields' = Some (JObj wm')
    /\ dict_get "layer.0.weight" wm'
       = Some (JStr "model-00001-of-00002.safetensors").
Proof.
  destruct (C4_manifest_rewrite_frame Mem.storage MemFacts.laws
              Sample.index Sample.checkpoint _ Sample.weight_map
              eq_refl eq_refl eq_refl)
    as (fields' & wm' & Hl & Hk & Ho & Hw & Hlast & _).
  exists fields', wm'. split; [exact Hl|]. split; [exact Hk|].
  split; [|split; [exact Hw|]].
  - rewrite (Ho "metadata"); [reflexivity | discriminate].
  - apply (Hlast [] Sample.wrapped_key _
                 [("a.weight", JStr "model-00002-of-00002.safetensors")]).
    + reflexivity.
    + intros kv [<-|[]]. discriminate.
Defined.

(** ** C7: nothing to rename is a no-op *)

(** C7: a key without the marker is its own normal form; on a container
    none of whose keys contains the marker the shard rewriter returns
    [False] and leaves the storage as it is; so does the manifest rewriter
    on a manifest none of whose [weight_map] keys contains the marker. *)
Theorem C7_no_marker_no_op :
  (forall k, has_marker k = false -> normalize k = k)
  /\ (forall (S : Storage) (p : path) (s : FS) (f : handle),
        safe_open p s = Ok f ->
        (forall k, In k (h_keys f) -> has_marker k = false) ->
        fst (clean_safetensors_file p s) = (Ok false, s))
  /\ (forall (S : Storage) (p : path) (s : FS) (fields wm : pydict json),
        json_load p s = Ok (JObj fields) ->
        dict_get "weight_map" fields = Some (JObj wm) ->
        (forall k filename, In (k, filename) wm -> has_marker k = false) ->
        fst (update_index_json p s) = (Ok false, s)).
Proof.
  split; [exact normalize_absent|]. split.
  - intros S p s f Ho Hk. rewrite clean_outcome. unfold shard_outcome.
    rewrite Ho, (existsb_has_marker_false _ Hk).
    now destruct (read_all f (h_keys f)).
  - intros S p s fields wm Hl Hw Hk. rewrite update_outcome.
    unfold manifest_outcome. destruct (path_exists p s); [|reflexivity].
    rewrite Hl, (manifest_with_map _ _ _ _ Hw).
    replace (existsb (fun kv => has_marker (fst kv)) wm) with false;
      [reflexivity|].
    symmetry. destruct (existsb _ wm) eqn:E; [|reflexivity].
    apply existsb_exists in E as ([k v] & Hin & Hm). cbn [fst] in Hm.
    rewrite (Hk k v Hin) in Hm. discriminate.
Qed.

Lemma C7_witness :
  normalize "a.weight" = "a.weight"
  /\ fst (clean_safetensors_file (S:=Mem.storage)
            Sample.shard2 Sample.clean_checkpoint)
     = (Ok false, Sample.clean_checkpoint)
  /\ fst (update_index_json (S:=Mem.storage)
            Sample.index Sample.clean_checkpoint)
     = (Ok false, Sample.clean_checkpoint).
Proof.
  destruct C7_no_marker_no_op as (Hn & Hs & Hm).
  split; [apply Hn; reflexivity|]. split.
  - apply (Hs Mem.storage Sample.shard2 Sample.clean_checkpoint
              (Mem.handle_of None Sample.plain_tensors)); [reflexivity|].
    intros k [<-|[]]. reflexivity.
  - apply (Hm Mem.storage Sample.index Sample.clean_checkpoint
              [("weight_map",
                JObj [("a.weight", JStr "model-00002-of-00002.safetensors")])]
              [("a.weight", JStr "model-00002-of-00002.safetensors")]);
      [reflexivity | reflexivity |].
    intros k filename [[= <- <-]|[]]. reflexivity.
Defined.

(** ** C9: a manifest without [weight_map] *)




(** ** C8, C10: what is stored under a normalised key *)

Section StoredLast.
Context {S : Storage}.

(** The tensor of the last key with a given normal form is the one in the
    mapping handed to [save_file]. *)
Lemma stored_last (p : path) (s : FS) (f : handle)
      (front : list string) (k : string) (after : list string) (t : tensor) :
  safe_open p s = Ok f ->
  h_keys f = (front ++ k :: after)%list ->
  (forall k', In k' after -> normalize k' <> normalize k) ->
  (forall k', In k' (h_keys f) -> exists t', h_get_tensor f k' = Ok t') ->
  h_get_tensor f k = Ok t ->
  existsb has_marker (h_keys f) = true ->
  exists tensors,
    dict_get (normalize k) tensors = Some t
    /\ fst (clean_safetensors_file p s)
       = (Ok (succeeded (fst (save_file tensors p
                                (metadata_or_empty (h_metadata f)) s))),
          snd (save_file tensors p (metadata_or_empty (h_metadata f)) s)).
Proof.
  intros Ho Hkeys Hafter Hreads Hk Hm.
  destruct (read_all_total f _ Hreads) as [entries Hr].
  exists (renamed entries []). split.
  - pose proof (read_all_keys _ _ _ Hr) as Hmap. rewrite Hkeys in Hmap.
    apply map_eq_app in Hmap as (ef & er & -> & Hf & Her).
    apply map_eq_cons in Her as ([k0 t0] & ea & -> & Hk0 & Hea).
    cbn [fst] in Hk0. subst k0.
    assert (t0 = t) as ->.
    { assert (Hin : In (k, t0) (ef ++ (k, t0) :: ea))
        by (apply in_app_iff; right; now left).
      pose proof (read_all_values _ _ _ _ _ Hr Hin). congruence. }
    apply renamed_last. intros kv Hin. apply Hafter.
    rewrite <- Hea. now apply in_map.
  - rewrite clean_outcome. f_equal; now rewrite (shard_handed_over _ _ _ _ Ho Hr Hm).
Qed.

(** Two different keys with one normal form: one of them has the marker. *)
Lemma collision_has_marker (k1 k2 : string) :
  k1 <> k2 -> normalize k1 = normalize k2 ->
  has_marker k1 = true \/ has_marker k2 = true.
Proof.
  intros Hne He.
  destruct (has_marker k1) eqn:H1; [now left|].
  destruct (has_marker k2) eqn:H2; [now right|].
  rewrite (normalize_absent _ H1), (normalize_absent _ H2) in He. contradiction.
Qed.
End StoredLast.

(** C8: when two different keys of a container have the same normal form,
    the mapping handed to [save_file] holds, under that normal form, the
    tensor of the key enumerated later; the rewriter raises nothing and
    reports what [save_file] reports. *)
Theorem C8_last_write_wins
        (S : Storage) (p : path) (s : FS) (f : handle)
        (before : list string) (k1 : string) (between : list string)
        (k2 : string) (after : list string) (t2 : tensor) :
  safe_open p s = Ok f ->
  h_keys f = (before ++ k1 :: between ++ k2 :: after)%list ->
  k1 <> k2 ->
  normalize k1 = normalize k2 ->
  (forall k, In k after -> normalize k <> normalize k2) ->
  (forall k, In k (h_keys f) -> exists t, h_get_tensor f k = Ok t) ->
  h_get_tensor f k2 = Ok t2 ->
  exists tensors,
    dict_get (normalize k1) tensors = Some t2
    /\ fst (clean_safetensors_file p s)
       = (Ok (succeeded (fst (save_file tensors p
                                (metadata_or_empty (h_metadata f)) s))),
          snd (save_file tensors p (metadata_or_empty (h_metadata f)) s)).
Proof.
  intros Ho Hkeys Hne He Hafter Hreads Hk2. rewrite He.
  apply (stored_last p s f (before ++ k1 :: between) k2 after t2); trivial.
  - rewrite Hkeys, <- app_assoc. reflexivity.
  - apply existsb_exists.
    destruct (collision_has_marker _ _ Hne He) as [H|H];
      [exists k1 | exists k2]; (split; [|exact H]);
      rewrite Hkeys, !in_app_iff; cbn [In]; rewrite ?in_app_iff; cbn [In]; auto.
Qed.

Lemma C8_witness :
  exists tensors,
    dict_get "x" tensors = Some Sample.T2
    /\ fst (clean_safetensors_file (S:=Mem.storage)
              Sample.shard1 Sample.colliding_checkpoint)
       = (Ok true,
          Mem.store Sample.shard1 (Mem.Shard (Some Sample.meta) tensors)
                    Mem.Writable Sample.colliding_checkpoint).
Proof.
  destruct (C8_last_write_wins Mem.storage
              Sample.shard1 Sample.colliding_checkpoint
              (Mem.handle_of (Some Sample.meta) Sample.colliding_tensors)
              [] "x._checkpoint_wrapped_module" [] "x" [] Sample.T2)
    as (tensors & Hg & Hrun).
  - reflexivity.
  - reflexivity.
  - discriminate.
  - reflexivity.
  - intros k [].
  - intros k [<-|[<-|[]]]; eexists; reflexivity.
  - reflexivity.
  - exists tensors. split; [exact Hg | exact Hrun].
Defined.

(** C10: the marker normalises to the empty string, and a key that contains
    the marker and normalises to the empty string has its tensor stored
    under the empty key in the mapping handed to [save_file]; no check
    rejects it. *)
Theorem C10_empty_key :
  normalize marker = ""
  /\ forall (S : Storage) (p : path) (s : FS) (f : handle)
            (before : list string) (k : string) (after : list string)
            (t : tensor),
      safe_open p s = Ok f ->
      h_keys f = (before ++ k :: after)%list ->
      has_marker k = true ->
      normalize k = "" ->
      (forall k', In k' after -> normalize k' <> "") ->
      (forall k', In k' (h_keys f) -> exists t', h_get_tensor f k' = Ok t') ->
      h_get_tensor f k = Ok t ->
      exists tensors,
        dict_get "" tensors = Some t
        /\ fst (clean_safetensors_file p s)
           = (Ok (succeeded (fst (save_file tensors p
                                    (metadata_or_empty (h_metadata f)) s))),
              snd (save_file tensors p (metadata_or_empty (h_metadata f)) s)).
Proof.
  split; [reflexivity|].
  intros S p s f before k after t Ho Hkeys Hm Hn Hafter Hreads Hk.
  rewrite <- Hn.
  apply (stored_last p s f before k after t); trivial.
  - now rewrite Hn.
  - apply existsb_exists. exists k. split; [|exact Hm].
    rewrite Hkeys. apply in_app_iff. right. now left.
Qed.

Lemma C10_witness :
  exists tensors,
    dict_get "" tensors = Some Sample.T1
    /\ fst (clean_safetensors_file (S:=Mem.storage)
              Sample.shard1 Sample.marker_checkpoint)
       = (Ok true,
          Mem.store Sample.shard1 (Mem.Shard (Some []) tensors)
                    Mem.Writable Sample.marker_checkpoint).
Proof.
  destruct C10_empty_key as [_ H].
  destruct (H Mem.storage Sample.shard1 Sample.marker_checkpoint
              (Mem.handle_of None Sample.marker_tensors)
              [] marker ["b"] Sample.T1)
    as (tensors & Hg & Hrun).
  - reflexivity.
  - reflexivity.
  - reflexivity.
  - reflexivity.
  - intros k' [<-|[]]. discriminate.
  - intros k' [<-|[<-|[]]]; eexists; reflexivity.
  - reflexivity.
  - exists tensors. split; [exact Hg | exact Hrun].
Defined.

(** ** C5: failures of the shard rewriter *)



(** ** C6: directory mode *)

Section Frame.
Context {S : Storage} {L : StorageLaws S}.

(** The shard rewriter leaves every other file alone. *)
Lemma shard_frame (p q : path) (s : FS) :
  q <> p ->
  json_load q (snd (shard_outcome p s)) = json_load q s
  /\ path_exists q (snd (shard_outcome p s)) = path_exists q s.
Proof.
  intros Hq. unfold shard_outcome.
  destruct (safe_open p s) as [f|]; [|now split].
  destruct (read_all f (h_keys f)) as [entries|]; [|now split].
  destruct (existsb has_marker (h_keys f)); [|now split].
  destruct save_file as [r s'] eqn:Hs.
  pose proof (save_elsewhere _ _ _ _ _ _ _ Hs Hq).
  now destruct r.
Qed.

Lemma shards_frame (files : list path) (q : path) (s : FS) :
  (forall p, In p files -> q <> p) ->
  json_load q (snd (shards_outcome files s)) = json_load q s
  /\ path_exists q (snd (shards_outcome files s)) = path_exists q s.
Proof.
  revert s; induction files as [|p files IH]; intros s H; [now split|].
  cbn [shards_outcome].
  destruct (shard_frame p q s (H p (or_introl eq_refl))) as [H1 H2].
  destruct (shard_outcome p s) as [m s1]. cbn [snd] in H1, H2.
  destruct (IH s1 (fun p' Hp' => H p' (or_intror Hp'))) as [H3 H4].
  destruct (shards_outcome files s1) as [m' s2]. cbn [snd] in *.
  split; congruence.
Qed.

(** The manifest is not one of the globbed files. *)
Lemma index_not_globbed (dir : path) (s : FS) (p : path) :
  In p (glob_safetensors dir s) -> path_div dir index_name <> p.
Proof.
  intros Hin E. destruct (glob_children _ _ _ Hin) as (name & -> & Hs).
  unfold path_div in E. apply app_inj_tail in E as [_ <-]. discriminate.
Qed.
End Frame.

(** C6: in directory mode the manifest rewriter is entered exactly when a
    container was modified during the run and the manifest file is there; it
    then works on the storage left by the shards; when no container was
    modified the manifest file is as it was. *)
Theorem C6_manifest_iff_modified
        (S : Storage) (L : StorageLaws S) (directory : path) (s : FS) :
  path_exists directory s = true ->
  let files := glob_safetensors directory s in
  let index_path := path_div directory index_name in
  (manifest_rewriter_ran (snd (process_directory directory s))
   <-> modified_in_run files s /\ path_exists index_path s = true)
  /\ (modified_in_run files s /\ path_exists index_path s = true ->
      snd (fst (process_directory directory s))
      = snd (fst (update_index_json index_path
                    (snd (fst (clean_all files false s))))))
  /\ (~ modified_in_run files s ->
      json_load index_path (snd (fst (process_directory directory s)))
      = json_load index_path s
      /\ path_exists index_path (snd (fst (process_directory directory s)))
         = path_exists index_path s).
Proof.
  intros Hdir files index_path.
  destruct (process_directory_run directory s) as (out & Hrun & Hran).
  rewrite Hrun. cbn [fst snd]. fold files index_path in Hran.
  destruct (shards_frame files index_path s
              (index_not_globbed directory s)) as [Hload Hex].
  split; [|split].
  - rewrite Hran, modified_in_run_flag, Hex. tauto.
  - intros [Hmod Hidx]. rewrite modified_in_run_flag in Hmod.
    destruct (clean_all_run files false s) as (o & -> & _). cbn [fst snd].
    rewrite update_outcome. cbn [snd].
    unfold directory_outcome. rewrite Hdir. fold files index_path.
    rewrite <- Hex in Hidx.
    destruct (shards_outcome files s) as [any s1]. cbn [fst snd] in *.
    now rewrite Hmod, Hidx.
  - intros Hno. rewrite modified_in_run_flag in Hno.
    unfold directory_outcome. rewrite Hdir. fold files index_path.
    destruct (shards_outcome files s) as [any s1]. cbn [fst snd] in *.
    destruct any; [now elim Hno|]. cbn [andb snd]. now split.
Qed.

Lemma C6_witness :
  (manifest_rewriter_ran
     (snd (process_directory (S:=Mem.storage) Sample.dir Sample.checkpoint))
   <-> modified_in_run (S:=Mem.storage)
         [Sample.shard1; Sample.shard2] Sample.checkpoint
       /\ Mem.exists_ Sample.index Sample.checkpoint = true)
  /\ (modified_in_run (S:=Mem.storage)
        [Sample.shard1; Sample.shard2] Sample.checkpoint
      /\ Mem.exists_ Sample.index Sample.checkpoint = true ->
      snd (fst (process_directory (S:=Mem.storage) Sample.dir Sample.checkpoint))
      = snd (fst (update_index_json (S:=Mem.storage) Sample.index
                    (snd (fst (clean_all (S:=Mem.storage)
                                 [Sample.shard1; Sample.shard2] false
                                 Sample.checkpoint))))))
  /\ (~ modified_in_run (S:=Mem.storage)
          [Sample.shard1; Sample.shard2] Sample.checkpoint ->
      Mem.load Sample.index
        (snd (fst (process_directory (S:=Mem.storage)
                     Sample.dir Sample.checkpoint)))
      = Mem.load Sample.index Sample.checkpoint
      /\ Mem.exists_ Sample.index
           (snd (fst (process_directory (S:=Mem.storage)
                        Sample.dir Sample.checkpoint)))
         = Mem.exists_ Sample.index Sample.checkpoint).
Proof.
  apply (C6_manifest_iff_modified Mem.storage MemFacts.laws
           Sample.dir Sample.checkpoint).
  reflexivity.
Defined.

(* ================================================================== *)
(** * Part IV: further properties of the script                        *)
(* ================================================================== *)

(** ** More on [in] and [replace] *)

Section Occurrences.

Lemma contains_prefix (sub s : string) :
  prefix sub s = true -> PyStr.contains sub s = true.
Proof. destruct s; simpl; intros ->; reflexivity. Qed.

Lemma string_app_assoc (a b c : string) : (a ++ b) ++ c = a ++ b ++ c.
Proof. induction a; simpl; congruence. Qed.

Lemma prefix_append_mono (a x y : string) :
  prefix a x = true -> prefix a (x ++ y) = true.
Proof.
  intros H. destruct (prefix_split _ _ H) as [t ->].
  rewrite string_app_assoc. apply prefix_append.
Qed.

(** [sub in s] finds an occurrence, and only an occurrence. *)
Lemma contains_spec (sub s : string) :
  PyStr.contains sub s = true <-> exists a b, s = a ++ sub ++ b.
Proof.
  split.
  - induction s as [|c s IH]; cbn [PyStr.contains].
    + intros H. destruct sub; [|discriminate]. now exists "", "".
    + intros H. apply orb_true_iff in H as [H|H].
      * destruct (prefix_split _ _ H) as [t ->]. now exists "", t.
      * destruct (IH H) as (a & b & ->). now exists (String c a), b.
  - intros (a & b & ->). apply contains_append, contains_prefix, prefix_append.
Qed.

(** Removing an occurrence takes the whole marker away. *)
Lemma replace_marker_drops (s : string) :
  PyStr.contains marker s = true ->
  String.length (PyStr.replace marker "" s) + String.length marker
  <= String.length s.
Proof.
  induction s as [| t _ | c s Hp IH] using scan_ind.
  - discriminate.
  - intros _. rewrite replace_marker_hit, length_append.
    destruct (replace_marker_shorter t) as [Hle _]. lia.
  - cbn [PyStr.contains]. rewrite Hp. cbn [orb]. intros H.
    rewrite replace_marker_miss by exact Hp. cbn [String.length].
    specialize (IH H). lia.
Qed.

(** The scan cuts the key at the occurrences it removes. *)
Lemma replace_marker_pieces (s : string) :
  exists piece pieces,
    s = String.concat marker (piece :: pieces)
    /\ PyStr.replace marker "" s = String.concat "" (piece :: pieces)
    /\ Forall (fun u => has_marker u = false) (piece :: pieces).
Proof.
  induction s as [| t IH | c s Hp IH] using scan_ind.
  - exists "", []. repeat split. repeat constructor.
  - destruct IH as (u & us & Ht & Hr & Hf).
    exists "", (u :: us). rewrite replace_marker_hit. split; [|split].
    + change (String.concat marker ("" :: u :: us))
        with ("" ++ marker ++ String.concat marker (u :: us)).
      now rewrite <- Ht.
    + exact Hr.
    + constructor; [reflexivity | exact Hf].
  - destruct IH as (u & us & Hs & Hr & Hf).
    exists (String c u), us. rewrite replace_marker_miss by exact Hp.
    split; [|split].
    + rewrite Hs. now destruct us.
    + rewrite Hr. now destruct us.
    + apply Forall_cons_iff in Hf as [Hu Hus]. constructor; [|exact Hus].
      unfold has_marker in *. cbn [PyStr.contains]. rewrite Hu, orb_false_r.
      destruct (prefix marker (String c u)) eqn:E; [|reflexivity].
      rewrite <- Hp, Hs. symmetry.
      destruct us as [|u' us]; [exact E|].
      exact (prefix_append_mono marker (String c u)
               (marker ++ String.concat marker (u' :: us)) E).
Qed.

End Occurrences.

(** ** The key normaliser, continued *)

(** X1: every key is its marker-free pieces joined by the marker, and its
    normal form is the same pieces joined by nothing. *)
Theorem X1_normalize_split_join (k : string) :
  exists piece pieces,
    k = String.concat marker (piece :: pieces)
    /\ normalize k = String.concat "" (piece :: pieces)
    /\ Forall (fun u => has_marker u = false) (piece :: pieces).
Proof. rewrite normalize_replace. apply replace_marker_pieces. Qed.

(** X2: a key without occurrence of the marker is its own normal form; a
    key with an occurrence loses at least the length of the marker. *)
Theorem X2_normalize_fixed_or_shorter (k : string) :
  ((forall a b, k <> a ++ marker ++ b) -> normalize k = k)
  /\ ((exists a b, k = a ++ marker ++ b) ->
      String.length (normalize k) + 27 <= String.length k).
Proof.
  split.
  - intros H. apply normalize_absent.
    destruct (PyStr.contains marker k) eqn:E; [|reflexivity].
    apply contains_spec in E as (a & b & E). now elim (H a b).
  - intros H. apply contains_spec in H. rewrite normalize_replace.
    exact (replace_marker_drops k H).
Qed.

Lemma X2_witness :
  normalize "a.weight" = "a.weight"
  /\ String.length (normalize Sample.wrapped_key) + 27
     <= String.length Sample.wrapped_key.
Proof.
  split.
  - apply (proj1 (X2_normalize_fixed_or_shorter "a.weight")).
    intros a b E.
    assert (H : PyStr.contains marker "a.weight" = true)
      by (apply contains_spec; now exists a, b).
    discriminate H.
  - apply (proj2 (X2_normalize_fixed_or_shorter Sample.wrapped_key)).
    now exists "layer.0", ".weight".
Defined.

(** ** The new mapping: distinct keys, order of insertion *)

Section RenamedShape.
Context {V : Type}.
Implicit Types (d : pydict V) (entries : list (string * V)).

(** Assigning to a key that is not there appends it. *)
Lemma dict_set_absent k (v : V) d :
  ~ In k (dict_keys d) -> dict_set k v d = (d ++ [(k, v)])%list.
Proof.
  unfold dict_set, dict_keys.
  induction d as [|[k0 v0] d IH]; cbn [assoc_set map fst app In];
    intros H; [reflexivity|].
  destruct (string_dec k k0) as [->|n]; [now elim H; left|].
  rewrite IH; [reflexivity | tauto].
Qed.

Lemma dict_set_keys_nodup k (v : V) d :
  NoDup (dict_keys d) -> NoDup (dict_keys (dict_set k v d)).
Proof.
  intros H. destruct (in_dec string_dec k (dict_keys d)) as [Hin|Hin].
  - rewrite dict_set_keys; [exact H | now apply dict_mem_keys].
  - rewrite dict_set_absent by exact Hin. unfold dict_keys in *.
    rewrite map_app. cbn [map fst].
    apply NoDup_app; [exact H | repeat constructor; intros [] |].
    intros x Hx [<-|[]]. contradiction.
Qed.

Lemma dict_set_length k (v : V) d :
  List.length (dict_set k v d) <= S (List.length d).
Proof.
  unfold dict_set. induction d as [|[k0 v0] d IH]; cbn [assoc_set List.length].
  - lia.
  - destruct (string_dec k k0); cbn [List.length]; lia.
Qed.

(** A [dict] never holds a key twice. *)
Lemma renamed_keys_nodup entries d :
  NoDup (dict_keys d) -> NoDup (dict_keys (renamed entries d)).
Proof.
  revert d; induction entries as [|kv entries IH]; intros d H; [exact H|].
  rewrite renamed_cons. now apply IH, dict_set_keys_nodup.
Qed.

Lemma renamed_length entries d :
  List.length (renamed entries d) <= List.length d + List.length entries.
Proof.
  revert d; induction entries as [|kv entries IH]; intros d.
  - cbn. lia.
  - rewrite renamed_cons. cbn [List.length].
    specialize (IH (dict_set (normalize (fst kv)) (snd kv) d)).
    pose proof (dict_set_length (normalize (fst kv)) (snd kv) d). lia.
Qed.

(** The keys of the new mapping are the normal forms of the old keys. *)
Lemma renamed_keys entries (k' : string) :
  In k' (dict_keys (renamed entries ([] : pydict V)))
  <-> exists k, In k (map fst entries) /\ normalize k = k'.
Proof.
  rewrite <- dict_mem_keys. split.
  - unfold dict_mem. intros H.
    destruct (dict_get k' (renamed entries [])) as [v|] eqn:E; [|discriminate].
    destruct (renamed_source _ _ _ _ E) as [(k & Hin & Hk)|Hnil];
      [|discriminate].
    exists k. split; [|exact Hk]. apply in_map_iff. now exists (k, v).
  - intros (k & Hin & <-). apply in_map_iff in Hin as (kv & <- & Hin).
    now apply renamed_mem.
Qed.

(** Without two entries of one normal form, every entry is appended in
    turn. *)
Lemma renamed_exact entries d :
  NoDup (dict_keys d ++ map (fun kv => normalize (fst kv)) entries) ->
  renamed entries d = (d ++ map rename_entry entries)%list.
Proof.
  revert d; induction entries as [|kv entries IH]; intros d H.
  - cbn. now rewrite app_nil_r.
  - rewrite renamed_cons. cbn [map] in H |- *.
    assert (Hout : ~ In (normalize (fst kv)) (dict_keys d)).
    { intros Hin. apply NoDup_remove_2 in H. apply H, in_app_iff. now left. }
    rewrite dict_set_absent by exact Hout.
    rewrite IH.
    + now rewrite <- app_assoc.
    + unfold dict_keys. rewrite map_app, <- app_assoc. exact H.
Qed.

End RenamedShape.

(** ** The shard rewriter, continued *)

(** X3: the shard rewriter reports a modification exactly when the
    container could be opened, every tensor could be read, some key contains
    the marker and [save_file] returned. *)
Theorem X3_clean_true_iff (S : Storage) (p : path) (s : FS) :
  fst (fst (clean_safetensors_file p s)) = Ok true
  <-> exists f entries,
        safe_open p s = Ok f
        /\ read_all f (h_keys f) = Ok entries
        /\ (exists k, In k (h_keys f) /\ has_marker k = true)
        /\ fst (save_file (renamed entries []) p
                          (metadata_or_empty (h_metadata f)) s) = Ok tt.
Proof.
  rewrite clean_outcome. cbn [fst]. split.
  - intros H. injection H as H. unfold shard_outcome in H.
    destruct (safe_open p s) as [f|] eqn:Ho; [|discriminate].
    destruct (read_all f (h_keys f)) as [entries|] eqn:Hr; [|discriminate].
    destruct (existsb has_marker (h_keys f)) eqn:E; [|discriminate].
    exists f, entries.
    split; [reflexivity|]. split; [exact Hr|]. split.
    + now apply existsb_exists.
    + now destruct save_file as [[[]|] s'].
  - intros (f & entries & Ho & Hr & Hk & Hs).
    apply existsb_exists in Hk.
    rewrite (shard_handed_over _ _ _ _ Ho Hr Hk). cbn [fst]. now rewrite Hs.
Qed.

(** X4: the mapping handed to [save_file] holds each normal form of a key
    of the container once, and nothing else; it has at most as many entries
    as the container has keys. *)
Theorem X4_new_keys_distinct
        (S : Storage) (p : path) (s : FS) (f : handle)
        (entries : list (string * tensor)) :
  safe_open p s = Ok f ->
  read_all f (h_keys f) = Ok entries ->
  existsb has_marker (h_keys f) = true ->
  exists tensors,
    fst (clean_safetensors_file p s)
    = (Ok (succeeded (fst (save_file tensors p
                             (metadata_or_empty (h_metadata f)) s))),
       snd (save_file tensors p (metadata_or_empty (h_metadata f)) s))
    /\ NoDup (dict_keys tensors)
    /\ List.length tensors <= List.length (h_keys f)
    /\ (forall k', In k' (dict_keys tensors)
                   <-> exists k, In k (h_keys f) /\ normalize k = k').
Proof.
  intros Ho Hr Hm. exists (renamed entries []). split; [|split; [|split]].
  - rewrite clean_outcome. f_equal; now rewrite (shard_handed_over _ _ _ _ Ho Hr Hm).
  - apply renamed_keys_nodup. constructor.
  - pose proof (renamed_length entries ([] : pydict tensor)) as H.
    rewrite <- (read_all_keys _ _ _ Hr), length_map. exact H.
  - intros k'. rewrite renamed_keys. now rewrite (read_all_keys _ _ _ Hr).
Qed.

Lemma X4_witness :
  exists tensors,
    fst (clean_safetensors_file (S:=Mem.storage)
           Sample.shard1 Sample.colliding_checkpoint)
    = (Ok true,
       Mem.store Sample.shard1 (Mem.Shard (Some Sample.meta) tensors)
                 Mem.Writable Sample.colliding_checkpoint)
    /\ NoDup (dict_keys tensors)
    /\ List.length tensors <= 2.
Proof.
  destruct (X4_new_keys_distinct Mem.storage
              Sample.shard1 Sample.colliding_checkpoint
              (Mem.handle_of (Some Sample.meta) Sample.colliding_tensors)
              Sample.colliding_tensors eq_refl eq_refl eq_refl)
    as (tensors & Hrun & Hnd & Hlen & _).
  exists tensors. split; [exact Hrun|]. split; [exact Hnd | exact Hlen].
Defined.

(** X5: when no two keys of the container have the same normal form, the
    mapping handed to [save_file] lists the tensors in the order of
    enumeration, each under the normal form of its key. *)
Theorem X5_rewrite_keeps_order
        (S : Storage) (p : path) (s : FS) (f : handle)
        (entries : list (string * tensor)) :
  safe_open p s = Ok f ->
  read_all f (h_keys f) = Ok entries ->
  existsb has_marker (h_keys f) = true ->
  NoDup (map normalize (h_keys f)) ->
  fst (clean_safetensors_file p s)
  = (Ok (succeeded (fst (save_file (map rename_entry entries) p
                           (metadata_or_empty (h_metadata f)) s))),
     snd (save_file (map rename_entry entries) p
                    (metadata_or_empty (h_metadata f)) s)).
Proof.
  intros Ho Hr Hm Hnd.
  rewrite clean_outcome, (shard_handed_over _ _ _ _ Ho Hr Hm).
  rewrite (renamed_exact entries []); [reflexivity|].
  cbn [dict_keys map app].
  rewrite <- (read_all_keys _ _ _ Hr), map_map in Hnd. exact Hnd.
Qed.

Lemma X5_witness :
  fst (clean_safetensors_file (S:=Mem.storage) Sample.shard1 Sample.checkpoint)
  = (Ok true,
     Mem.store Sample.shard1
       (Mem.Shard (Some Sample.meta)
          [("layer.0.weight", Sample.T1); ("layer.1.weight", Sample.T2)])
       Mem.Writable Sample.checkpoint).
Proof.
  apply (X5_rewrite_keeps_order Mem.storage Sample.shard1 Sample.checkpoint
           (Mem.handle_of (Some Sample.meta) Sample.wrapped_tensors)
           Sample.wrapped_tensors eq_refl eq_refl eq_refl).
  repeat constructor; cbn; intuition discriminate.
Defined.

(** X6: a second run of the shard rewriter on a container it has just
    rewritten changes nothing, when every marker in the original keys was a
    whole dotted component. *)
Theorem X6_second_clean_is_noop
        (S : Storage) (L : StorageLaws S) (p : path) (s : FS) (f : handle) :
  safe_open p s = Ok f ->
  (forall k, In k (h_keys f) -> whole_components k = true) ->
  fst (fst (clean_safetensors_file p s)) = Ok true ->
  fst (clean_safetensors_file p (snd (fst (clean_safetensors_file p s))))
  = (Ok false, snd (fst (clean_safetensors_file p s))).
Proof.
  intros Ho Hw Ht. rewrite (clean_outcome p s) in *. cbn [fst snd] in *.
  injection Ht as Ht.
  destruct (shard_rewritten _ _ _ Ho Ht) as (entries & Hr & _ & Hs).
  destruct (save_then_open _ _ _ _ _ Hs) as (f' & Ho' & _ & Hk' & _).
  rewrite clean_outcome. unfold shard_outcome at 1 3. rewrite Ho'.
  rewrite existsb_has_marker_false.
  - now destruct (read_all f' (h_keys f')).
  - intros k' Hin. apply Hk', dict_mem_keys, renamed_keys in Hin
      as (k & Hin & <-).
    rewrite (read_all_keys _ _ _ Hr) in Hin.
    apply normalize_marker_free, Hw, Hin.
Qed.

Lemma X6_witness :
  fst (clean_safetensors_file (S:=Mem.storage) Sample.shard1
         (snd (fst (clean_safetensors_file (S:=Mem.storage)
                      Sample.shard1 Sample.checkpoint))))
  = (Ok false,
     snd (fst (clean_safetensors_file (S:=Mem.storage)
                 Sample.shard1 Sample.checkpoint))).
Proof.
  apply (X6_second_clean_is_noop Mem.storage MemFacts.laws
           Sample.shard1 Sample.checkpoint
           (Mem.handle_of (Some Sample.meta) Sample.wrapped_tensors)
           eq_refl).
  - intros k [<-|[<-|[]]]; reflexivity.
  - reflexivity.
Defined.

(** ** The manifest rewriter, continued *)

(** X7: a manifest that is missing or cannot be loaded makes the manifest
    rewriter return [False] with the storage untouched; a failure of the
    write makes it return [False] with the storage as [json_dump] left
    it.  No exception leaves the function in these cases. *)
Theorem X7_update_failures_are_reported (S : Storage) (p : path) (s : FS) :
  (path_exists p s = false ->
   update_index_json p s
   = (Ok false, s, ["Index file not found: " ++ path_str p]))
  /\ (forall e,
        path_exists p s = true -> json_load p s = Raise e ->
        update_index_json p s
        = (Ok false, s,
           ["Processing index file: " ++ path_str p;
            "Error reading index file: " ++ exn_msg e]))
  /\ (forall fields wm e s1,
        path_exists p s = true ->
        json_load p s = Ok (JObj fields) ->
        dict_get "weight_map" fields = Some (JObj wm) ->
        existsb (fun kv => has_marker (fst kv)) wm = true ->
        json_dump (JObj (dict_set "weight_map" (JObj (renamed wm [])) fields))
                  p s = (Raise e, s1) ->
        fst (update_index_json p s) = (Ok false, s1)).
Proof.
  split; [|split].
  - intros H. unfold update_index_json, bind, query, print, ret.
    now rewrite H.
  - intros e H Hl.
    unfold update_index_json, bind, query, print, ret, try_except, reading.
    rewrite H. cbv beta iota delta [negb]. now rewrite Hl.
  - intros fields wm e s1 H Hl Hw Hm Hd.
    rewrite update_outcome. unfold manifest_outcome.
    rewrite H, Hl, (manifest_with_map _ _ _ _ Hw), Hm. now rewrite Hd.
Qed.

Lemma X7_witness :
  update_index_json (S:=Mem.storage) Sample.index Sample.marker_checkpoint
  = (Ok false, Sample.marker_checkpoint,
     ["Index file not found: ckpt/model.index.json"]%list)
  /\ update_index_json (S:=Mem.storage)
       Sample.index Sample2.broken_manifest_checkpoint
     = (Ok false, Sample2.broken_manifest_checkpoint,
        ["Processing index file: ckpt/model.index.json";
         "Error reading index file: Expecting value: line 1 column 1 (char 0)"]%list)
  /\ fst (update_index_json (S:=Mem.storage)
            Sample.index Sample2.locked_manifest_checkpoint)
     = (Ok false, Sample2.locked_manifest_checkpoint).
Proof.
  split; [|split].
  - apply (proj1 (X7_update_failures_are_reported
                    Mem.storage Sample.index Sample.marker_checkpoint)).
    reflexivity.
  - apply (proj1 (proj2 (X7_update_failures_are_reported
                           Mem.storage Sample.index
                           Sample2.broken_manifest_checkpoint))
             (Exception "JSONDecodeError"
                "Expecting value: line 1 column 1 (char 0)"));
      reflexivity.
  - apply (proj2 (proj2 (X7_update_failures_are_reported
                           Mem.storage Sample.index
                           Sample2.locked_manifest_checkpoint))
             [("metadata", JObj [("total_size", JInt 11)]);
              ("weight_map", JObj Sample.weight_map)]
             Sample.weight_map
             (Exception "PermissionError"
                "[Errno 13] Permission denied: 'ckpt/model.index.json'"));
      reflexivity.
Defined.

(** X8: on a manifest that is an object, the manifest rewriter raises
    exactly when [weight_map] is there and is not an object: the call of
    [items] fails outside of the [try] blocks, with the storage untouched. *)
Theorem X8_update_raises_on_bad_weight_map
        (S : Storage) (p : path) (s : FS) (fields : pydict json) :
  path_exists p s = true ->
  json_load p s = Ok (JObj fields) ->
  (forall v,
     dict_get "weight_map" fields = Some v -> is_object v = false ->
     fst (update_index_json p s)
     = (Raise (Exception "AttributeError"
                 ("'" ++ type_name v ++ "' object has no attribute 'items'")),
        s))
  /\ ((forall v, dict_get "weight_map" fields = Some v -> is_object v = true) ->
      exists b, fst (fst (update_index_json p s)) = Ok b).
Proof.
  intros H Hl. rewrite update_outcome. unfold manifest_outcome.
  rewrite H, Hl. split.
  - intros v Hw Hv. unfold document_outcome, py_in, getitem, dict_mem.
    rewrite Hw. now destruct v.
  - intros Hobj. destruct (dict_get "weight_map" fields) as [v|] eqn:Hw.
    + specialize (Hobj v eq_refl). destruct v; try discriminate.
      rewrite (manifest_with_map _ _ _ _ Hw).
      destruct existsb; cbn [fst]; eauto.
    + unfold document_outcome, py_in, dict_mem. rewrite Hw. cbn. eauto.
Qed.

Lemma X8_witness :
  fst (update_index_json (S:=Mem.storage)
         Sample.index Sample2.null_map_checkpoint)
  = (Raise (Exception "AttributeError"
              "'NoneType' object has no attribute 'items'"),
     Sample2.null_map_checkpoint)
  /\ exists b,
       fst (fst (update_index_json (S:=Mem.storage)
                   Sample.index Sample.checkpoint)) = Ok b.
Proof.
  split.
  - apply (proj1 (X8_update_raises_on_bad_weight_map
                    Mem.storage Sample.index Sample2.null_map_checkpoint
                    [("metadata", JObj []); ("weight_map", JNull)]
                    eq_refl eq_refl) JNull); reflexivity.
  - apply (proj2 (X8_update_raises_on_bad_weight_map
                    Mem.storage Sample.index Sample.checkpoint
                    [("metadata", JObj [("total_size", JInt 11)]);
                     ("weight_map", JObj Sample.weight_map)]
                    eq_refl eq_refl)).
    intros v [= <-]. reflexivity.
Defined.

(** X9: a manifest that is not an object is never written and never
    reported as modified: the rewriter returns [False] or raises. *)
Theorem X9_non_object_never_written
        (S : Storage) (p : path) (s : FS) (doc : json) :
  json_load p s = Ok doc ->
  is_object doc = false ->
  snd (fst (update_index_json p s)) = s
  /\ fst (fst (update_index_json p s)) <> Ok true.
Proof.
  intros Hl Hd. rewrite update_outcome. cbn [fst snd].
  unfold manifest_outcome. destruct (path_exists p s); [|split; [reflexivity | discriminate]].
  rewrite Hl. unfold document_outcome.
  destruct doc as [| b | z | r | t | l | fields]; try discriminate; cbn [py_in];
    try (split; [reflexivity | discriminate]).
  - destruct (PyStr.contains "weight_map" t); cbn;
      (split; [reflexivity | discriminate]).
  - destruct (existsb (is_str "weight_map") l); cbn;
      (split; [reflexivity | discriminate]).
Qed.

Lemma X9_witness :
  snd (fst (update_index_json (S:=Mem.storage) Sample.index
              (Mem.Fs [(Sample.index, (Mem.Manifest (JArr [JStr "weight_map"]),
                                       Mem.Writable))] [Sample.dir])))
  = Mem.Fs [(Sample.index, (Mem.Manifest (JArr [JStr "weight_map"]),
                            Mem.Writable))] [Sample.dir]
  /\ fst (fst (update_index_json (S:=Mem.storage) Sample.index
                 (Mem.Fs [(Sample.index,
                           (Mem.Manifest (JArr [JStr "weight_map"]),
                            Mem.Writable))] [Sample.dir])))
     <> Ok true.
Proof.
  apply (X9_non_object_never_written Mem.storage Sample.index
           (Mem.Fs [(Sample.index, (Mem.Manifest (JArr [JStr "weight_map"]),
                                    Mem.Writable))] [Sample.dir])
           (JArr [JStr "weight_map"])); reflexivity.
Defined.

(** X10: when no two keys of [weight_map] have the same normal form, the
    manifest that was rewritten is the old document with [weight_map]
    replaced by the same entries, in the same order, each under the normal
    form of its key. *)
Theorem X10_manifest_keeps_order
        (S : Storage) (L : StorageLaws S) (p : path) (s : FS)
        (fields wm : pydict json) :
  json_load p s = Ok (JObj fields) ->
  dict_get "weight_map" fields = Some (JObj wm) ->
  NoDup (map (fun kv => normalize (fst kv)) wm) ->
  fst (fst (update_index_json p s)) = Ok true ->
  json_load p (snd (fst (update_index_json p s)))
  = Ok (JObj (dict_set "weight_map" (JObj (map rename_entry wm)) fields)).
Proof.
  intros Hl Hw Hnd Ht. rewrite update_outcome in *. cbn [fst snd] in *.
  unfold manifest_outcome in *.
  destruct (path_exists p s); [|discriminate].
  rewrite Hl, (manifest_with_map _ _ _ _ Hw) in *.
  destruct (existsb (fun kv => has_marker (fst kv)) wm); [|discriminate].
  cbn [fst snd] in *.
  destruct json_dump as [[[]|e] s'] eqn:Hd; [|discriminate].
  cbn [snd]. apply dump_then_load in Hd.
  now rewrite (renamed_exact wm []) in Hd.
Qed.

Lemma X10_witness :
  Mem.load Sample.index
    (snd (fst (update_index_json (S:=Mem.storage)
                 Sample.index Sample.checkpoint)))
  = Ok (JObj [("metadata", JObj [("total_size", JInt 11)]);
              ("weight_map",
               JObj [("layer.0.weight", JStr "model-00001-of-00002.safetensors");
                     ("a.weight", JStr "model-00002-of-00002.safetensors")])]).
Proof.
  apply (X10_manifest_keeps_order Mem.storage MemFacts.laws
           Sample.index Sample.checkpoint
           [("metadata", JObj [("total_size", JInt 11)]);
            ("weight_map", JObj Sample.weight_map)]
           Sample.weight_map eq_refl eq_refl).
  - repeat constructor; cbn; intuition discriminate.
  - reflexivity.
Defined.

(** X11: a second run of the manifest rewriter on a manifest it has just
    rewritten changes nothing, when every marker in the original keys was a
    whole dotted component. *)
Theorem X11_second_update_is_noop
        (S : Storage) (L : StorageLaws S) (p : path) (s : FS)
        (fields wm : pydict json) :
  json_load p s = Ok (JObj fields) ->
  dict_get "weight_map" fields = Some (JObj wm) ->
  (forall k filename, In (k, filename) wm -> whole_components k = true) ->
  fst (fst (update_index_json p s)) = Ok true ->
  fst (update_index_json p (snd (fst (update_index_json p s))))
  = (Ok false, snd (fst (update_index_json p s))).
Proof.
  intros Hl Hw Hwc Ht. rewrite (update_outcome p s) in *. cbn [fst snd] in *.
  assert (Hd : json_load p (snd (manifest_outcome p s))
               = Ok (JObj (dict_set "weight_map" (JObj (renamed wm [])) fields))).
  { unfold manifest_outcome in *.
    destruct (path_exists p s); [|discriminate].
    rewrite Hl, (manifest_with_map _ _ _ _ Hw) in *.
    destruct (existsb (fun kv => has_marker (fst kv)) wm); [|discriminate].
    cbn [fst snd] in *.
    destruct json_dump as [[[]|e] s'] eqn:Hd; [|discriminate].
    cbn [snd]. now apply dump_then_load in Hd. }
  clear Ht. revert Hd. generalize (snd (manifest_outcome p s)). intros s' Hd.
  rewrite update_outcome. unfold manifest_outcome.
  destruct (path_exists p s'); [|reflexivity].
  rewrite Hd, (manifest_with_map _ _ _ (renamed wm []));
    [|apply dict_get_set_same].
  replace (existsb (fun kv => has_marker (fst kv)) (renamed wm [])) with false;
    [reflexivity|].
  symmetry. destruct (existsb _ (renamed wm [])) eqn:E; [|reflexivity].
  apply existsb_exists in E as ([k' v] & Hin & Hm). cbn [fst] in Hm.
  assert (Hk : In k' (dict_keys (renamed wm ([] : pydict json))))
    by (apply in_map_iff; now exists (k', v)).
  apply renamed_keys in Hk as (k & Hk & <-).
  apply in_map_iff in Hk as ([k0 v0] & Hk0 & Hin0). cbn [fst] in Hk0. subst k0.
  unfold has_marker in Hm.
  rewrite (normalize_marker_free k (Hwc k v0 Hin0)) in Hm. discriminate.
Qed.

Lemma X11_witness :
  fst (update_index_json (S:=Mem.storage) Sample.index
         (snd (fst (update_index_json (S:=Mem.storage)
                      Sample.index Sample.checkpoint))))
  = (Ok false,
     snd (fst (update_index_json (S:=Mem.storage)
                 Sample.index Sample.checkpoint))).
Proof.
  apply (X11_second_update_is_noop Mem.storage MemFacts.laws
           Sample.index Sample.checkpoint
           [("metadata", JObj [("total_size", JInt 11)]);
            ("weight_map", JObj Sample.weight_map)]
           Sample.weight_map eq_refl eq_refl).
  - intros k filename [[= <- <-]|[[= <- <-]|[]]]; reflexivity.
  - reflexivity.
Defined.

(** ** The orchestrator, continued *)

Section DirectoryRuns.
Context {S : Storage}.

(** When the manifest rewriter raises, it has not written. *)
Lemma manifest_raise_untouched (p : path) (s : FS) (e : exn) :
  fst (manifest_outcome p s) = Raise e -> snd (manifest_outcome p s) = s.
Proof.
  unfold manifest_outcome. destruct (path_exists p s); [|discriminate].
  destruct (json_load p s) as [doc|]; [|discriminate].
  unfold document_outcome.
  destruct (py_in "weight_map" doc) as [[|]|]; try reflexivity; try discriminate.
  destruct (getitem doc "weight_map") as [wm|]; [|reflexivity].
  destruct (items wm) as [entries|]; [|reflexivity].
  destruct (setitem doc "weight_map" (JObj (renamed entries []))) as [doc'|];
    [|reflexivity].
  destruct (existsb (fun kv => has_marker (fst kv)) entries); [|discriminate].
  destruct json_dump as [[[]|] s']; discriminate.
Qed.

Lemma detail_not_visit (line : string) :
  detail_line line = true -> is_visit line = false.
Proof.
  unfold detail_line. intros H. apply orb_true_iff in H as [H|H];
    destruct (prefix_split _ _ H) as [t ->]; reflexivity.
Qed.

Lemma filter_details (out : list string) :
  Forall (fun line => detail_line line = true) out -> filter is_visit out = [].
Proof.
  induction 1 as [|line out H _ IH]; [reflexivity|].
  cbn [filter]. now rewrite (detail_not_visit _ H).
Qed.

(** The loop of the shard rewriter prints indented lines only. *)
Lemma load_tensors_details (f : handle) keys acc (s : FS) :
  Forall (fun line => detail_line line = true)
         (snd (load_tensors f keys acc s)).
Proof.
  revert acc; induction keys as [|key keys IH]; intros acc; [constructor|].
  cbn [load_tensors]. unfold bind at 1. unfold lift at 1.
  destruct (h_get_tensor f key) as [t|e]; [|constructor].
  unfold bind at 1.
  destruct (PyStr.contains marker key).
  - unfold bind at 1. unfold print at 1. unfold ret at 1.
    specialize (IH (dict_set (PyStr.replace marker "" key) t (fst acc), true)).
    destruct load_tensors as [[r s'] o]. cbn [snd app] in *.
    constructor; [reflexivity | exact IH].
  - unfold ret at 1.
    specialize (IH (dict_set key t (fst acc), snd acc)).
    destruct load_tensors as [[r s'] o]. cbn [snd app] in *. exact IH.
Qed.

(** The shard rewriter names its file first and then gives details. *)
Lemma clean_output (p : path) (s : FS) :
  exists details,
    snd (clean_safetensors_file p s) = visit_line p :: details
    /\ Forall (fun line => detail_line line = true) details.
Proof.
  unfold clean_safetensors_file.
  unfold bind at 1. unfold print at 1.
  unfold bind at 1. unfold try_except at 1.
  unfold bind at 1. unfold reading at 1.
  destruct (safe_open p s) as [f|e].
  - unfold bind at 1.
    pose proof (load_tensors_details f (h_keys f) ([], false) s) as Hd.
    destruct (load_tensors f (h_keys f) ([], false) s) as [[[[d b]|e] s1] o1];
      cbn [snd] in Hd.
    + unfold ret at 1. destruct b; cbn [negb].
      * unfold try_except, bind, writing, print, ret.
        destruct (save_file d p (metadata_or_empty (h_metadata f)) s1)
          as [[[]|e] s']; cbn [snd app]; eexists;
          (split; [reflexivity|]); rewrite ?app_nil_r;
          apply Forall_app; (split; [exact Hd|]); repeat constructor.
      * unfold bind, print, ret. cbn [snd app]. eexists.
        split; [reflexivity|]. rewrite ?app_nil_r.
        apply Forall_app. split; [exact Hd|]. repeat constructor.
    + unfold bind, print, ret. cbn [snd app]. eexists.
      split; [reflexivity|]. rewrite ?app_nil_r.
      apply Forall_app. split; [exact Hd|]. repeat constructor.
  - cbn. eexists. split; [reflexivity|]. repeat constructor.
Qed.

Lemma visit_line_is_visit (p : path) : is_visit (visit_line p) = true.
Proof. apply prefix_append. Qed.

End DirectoryRuns.

(** X12: the loop over the shards never raises, whatever happens to single
    files, and visits every file once, in the order of the list. *)
Theorem X12_every_shard_is_visited
        (S : Storage) (files : list path) (any_modified : bool) (s : FS) :
  (exists b, fst (fst (clean_all files any_modified s)) = Ok b)
  /\ filter is_visit (snd (clean_all files any_modified s))
     = map visit_line files.
Proof.
  revert any_modified s; induction files as [|p files IH]; intros b s.
  - split; [now exists b | reflexivity].
  - cbn [clean_all map]. unfold bind.
    destruct (clean_output p s) as (details & Hout & Hd).
    destruct (clean_safetensors_file_run p s) as (out & Hrun & _).
    rewrite Hrun in *. cbn [snd] in Hout. subst out.
    specialize (IH (if fst (shard_outcome p s) then true else b)
                   (snd (shard_outcome p s))).
    destruct clean_all as [[r s2] o2]. cbn [fst snd] in *.
    split; [exact (proj1 IH)|].
    cbn [app filter]. rewrite visit_line_is_visit, filter_app.
    rewrite (filter_details _ Hd), (proj2 IH). reflexivity.
Qed.

(** X13: a directory that does not exist, or that holds no [*.safetensors]
    file, is left as it is: one line is printed and nothing is read or
    written, the manifest included. *)
Theorem X13_nothing_to_process (S : Storage) (directory : path) (s : FS) :
  (path_exists directory s = false ->
   process_directory directory s
   = (Ok tt, s, ["Error: Directory does not exist: " ++ path_str directory]))
  /\ (path_exists directory s = true ->
      glob_safetensors directory s = [] ->
      process_directory directory s
      = (Ok tt, s, ["No safetensors files found in: " ++ path_str directory])).
Proof.
  split.
  - intros H. unfold process_directory, bind, query, print. now rewrite H.
  - intros H Hg. unfold process_directory, bind, query, print.
    rewrite H. cbv beta iota delta [negb]. now rewrite Hg.
Qed.

Lemma X13_witness :
  process_directory (S:=Mem.storage) ["elsewhere"] Sample2.shardless_checkpoint
  = (Ok tt, Sample2.shardless_checkpoint,
     ["Error: Directory does not exist: elsewhere"]%list)
  /\ process_directory (S:=Mem.storage) Sample.dir Sample2.shardless_checkpoint
     = (Ok tt, Sample2.shardless_checkpoint,
        ["No safetensors files found in: ckpt"]%list).
Proof.
  split.
  - apply (proj1 (X13_nothing_to_process Mem.storage ["elsewhere"]%list
                    Sample2.shardless_checkpoint)). reflexivity.
  - apply (proj2 (X13_nothing_to_process Mem.storage Sample.dir
                    Sample2.shardless_checkpoint)); reflexivity.
Defined.

(** X14: directory mode raises only through the manifest rewriter, after
    the shards: some container was modified, and the storage is the one the
    loop over the shards left, rewritten containers included. *)
Theorem X14_no_rollback
        (S : Storage) (directory : path) (s : FS) (e : exn) :
  fst (fst (process_directory directory s)) = Raise e ->
  let files := glob_safetensors directory s in
  let s1 := snd (fst (clean_all files false s)) in
  modified_in_run files s
  /\ snd (fst (process_directory directory s)) = s1
  /\ fst (fst (update_index_json (path_div directory index_name) s1)) = Raise e.
Proof.
  intros H files s1.
  destruct (process_directory_run directory s) as (out & Hrun & _).
  rewrite Hrun in *. cbn [fst snd] in *.
  assert (Hs1 : s1 = snd (shards_outcome files s)).
  { unfold s1. now destruct (clean_all_run files false s) as (o & -> & _). }
  rewrite modified_in_run_flag, update_outcome, Hs1. cbn [fst].
  unfold directory_outcome in *. fold files in H |- *.
  destruct (path_exists directory s); [|discriminate].
  destruct (shards_outcome files s) as [any s2]. cbn [fst snd] in *.
  destruct (any && path_exists (path_div directory index_name) s2) eqn:E;
    [|discriminate].
  apply andb_true_iff in E as [-> _]. cbn [fst snd] in *.
  destruct (fst (manifest_outcome (path_div directory index_name) s2))
    as [b|e'] eqn:Hm; [discriminate|].
  injection H as ->. split; [reflexivity|]. split; [|reflexivity].
  exact (manifest_raise_untouched _ _ _ Hm).
Qed.

Lemma X14_witness :
  modified_in_run (S:=Mem.storage)
    [Sample.shard1]%list Sample2.null_map_checkpoint
  /\ snd (fst (process_directory (S:=Mem.storage)
                 Sample.dir Sample2.null_map_checkpoint))
     = Mem.store Sample.shard1
         (Mem.Shard (Some Sample.meta)
            [("layer.0.weight", Sample.T1); ("layer.1.weight", Sample.T2)])
         Mem.Writable Sample2.null_map_checkpoint.
Proof.
  destruct (X14_no_rollback Mem.storage Sample.dir Sample2.null_map_checkpoint
              (Exception "AttributeError"
                 "'NoneType' object has no attribute 'items'") eq_refl)
    as (Hm & Hs & _).
  split; [exact Hm | exact Hs].
Defined.

(** ** Paths of the in-memory storage *)

Module MemPathFacts.
Import MemPaths.

Lemma drop_length (n : nat) (s : string) :
  String.length (PyStr.drop n s) = String.length s - n.
Proof.
  revert s; induction n as [|n IH]; intros [|c s]; cbn; auto.
Qed.

Lemma name_suffix_endswith (name : string) :
  name_suffix name = ".safetensors" ->
  PyStr.endswith ".safetensors" name = true.
Proof.
  unfold name_suffix. destruct (rfind_dot name) as [i|]; [|discriminate].
  destruct ((0 <? i)%nat && (i <? String.length name - 1)%nat) eqn:G;
    [|discriminate].
  intros Hd. apply andb_true_iff in G as [_ G]. apply Nat.ltb_lt in G.
  pose proof (drop_length i name) as Hlen. rewrite Hd in Hlen.
  cbn [String.length] in Hlen.
  unfold PyStr.endswith. cbn [String.length].
  replace (String.length name - 12) with i by lia. rewrite Hd.
  apply andb_true_iff. split; [apply Nat.leb_le; lia | reflexivity].
Qed.

Lemma path_laws : PathLaws Mem.storage pathlib.
Proof.
  split. cbn [suffix pathlib]. unfold suffix_of. intros p H.
  destruct p as [|x p]; [discriminate|].
  exists (removelast (x :: p)), (last (x :: p) ""). split.
  - unfold path_div. apply app_removelast_last. discriminate.
  - now apply name_suffix_endswith.
Qed.

End MemPathFacts.

(** ** The entry point *)

Section MainRuns.
Context {S : Storage} {P : PathLib S}.

Lemma bind_query {A B} (f : FS -> A) (k : A -> M B) (s : FS) :
  bind (query f) k s = k (f s) s.
Proof. unfold bind, query. now destruct (k (f s) s) as [[r s2] o2]. Qed.

Lemma bind_ret {A B} (a : A) (k : A -> M B) (s : FS) :
  bind (ret a) k s = k a s.
Proof. unfold bind, ret. now destruct (k a s) as [[r s2] o2]. Qed.

(** What [main] does once the three tests on the path are known. *)
Lemma main_cases (arg : path) (s : FS) :
  main arg s
  = if path_exists arg s then
      if is_file arg s && String.eqb (suffix arg) ".safetensors" then
        bind (bind (clean_safetensors_file arg)
                (fun _ =>
                   bind (query (path_exists (path_div (parent arg) index_name)))
                     (fun index_present =>
                        if index_present : bool
                        then bind (update_index_json
                                     (path_div (parent arg) index_name))
                               (fun _ => ret tt)
                        else ret tt)))
             (fun _ => print "Processing complete!") s
      else if is_dir arg s then
        bind (process_directory arg) (fun _ => print "Processing complete!") s
      else
        (Raise (system_exit 1), s,
         ["Error: Path must be a .safetensors file or directory: "
            ++ path_str arg])
    else
      (Raise (system_exit 1), s,
       ["Error: Path does not exist: " ++ path_str arg]).
Proof.
  unfold main. rewrite bind_query.
  destruct (path_exists arg s); cbn [negb]; [|reflexivity].
  rewrite bind_ret, bind_query.
  destruct (is_file arg s && String.eqb (suffix arg) ".safetensors");
    [reflexivity|].
  unfold bind at 1. rewrite bind_query.
  destruct (is_dir arg s); reflexivity.
Qed.

(** A block that ends with a [print] and returns has that line last. *)
Lemma bind_print_last {A} (m : M A) (line : string) (s : FS) :
  fst (fst (bind m (fun _ => print line) s)) = Ok tt ->
  last (snd (bind m (fun _ => print line) s)) "" = line.
Proof.
  unfold bind, print. destruct (m s) as [[[a|e] s1] o1]; cbn [fst snd].
  - intros _. apply last_last.
  - discriminate.
Qed.

End MainRuns.

(** X15: a path that does not exist, or that is neither a [.safetensors]
    file nor a directory, makes [main] print one line and leave through
    [sys.exit(1)], with the storage untouched. *)
Theorem X15_main_rejects_bad_path
        (S : Storage) (P : PathLib S) (arg : path) (s : FS) :
  (path_exists arg s = false ->
   main arg s
   = (Raise (system_exit 1), s, ["Error: Path does not exist: " ++ path_str arg]))
  /\ (path_exists arg s = true ->
      is_file arg s && String.eqb (suffix arg) ".safetensors" = false ->
      is_dir arg s = false ->
      main arg s
      = (Raise (system_exit 1), s,
         ["Error: Path must be a .safetensors file or directory: "
            ++ path_str arg])).
Proof.
  rewrite main_cases. split.
  - now intros ->.
  - now intros -> -> ->.
Qed.

Lemma X15_witness :
  main (P:=MemPaths.pathlib) ["elsewhere"] Sample2.notes_checkpoint
  = (Raise (system_exit 1), Sample2.notes_checkpoint,
     ["Error: Path does not exist: elsewhere"]%list)
  /\ main (P:=MemPaths.pathlib) Sample2.notes Sample2.notes_checkpoint
     = (Raise (system_exit 1), Sample2.notes_checkpoint,
        ["Error: Path must be a .safetensors file or directory: ckpt/README.md"]%list)
  /\ exit_status (fst (fst (main (P:=MemPaths.pathlib)
                              Sample2.notes Sample2.notes_checkpoint))) = 1.
Proof.
  split; [|split].
  - apply (proj1 (X15_main_rejects_bad_path Mem.storage MemPaths.pathlib
                    ["elsewhere"]%list Sample2.notes_checkpoint)).
    reflexivity.
  - apply (proj2 (X15_main_rejects_bad_path Mem.storage MemPaths.pathlib
                    Sample2.notes Sample2.notes_checkpoint)); reflexivity.
  - reflexivity.
Defined.

Section SingleFile.
Context {S : Storage} {P : PathLib S}.

Lemma bind_assoc {A B C} (m : M A) (k : A -> M B) (h : B -> M C) (s : FS) :
  bind (bind m k) h s = bind m (fun a => bind (k a) h) s.
Proof.
  unfold bind. destruct (m s) as [[[a|e] s1] o1]; [|reflexivity].
  destruct (k a s1) as [[[b|e] s2] o2]; [|reflexivity].
  destruct (h b s2) as [[r s3] o3]. now rewrite app_assoc.
Qed.

Lemma bind_run {A B} (m : M A) (k : A -> M B) (s s1 : FS) (a : A) o1 :
  m s = (Ok a, s1, o1) ->
  bind m k s = (fst (fst (k a s1)), snd (fst (k a s1)), (o1 ++ snd (k a s1))%list).
Proof. unfold bind. intros ->. now destruct (k a s1) as [[r s2] o2]. Qed.

(** The manifest next to a shard is not the shard. *)
Lemma index_beside_shard {PL : PathLaws S P} (arg : path) :
  suffix arg = ".safetensors" -> path_div (parent arg) index_name <> arg.
Proof.
  intros Hs E. destruct (suffix_name _ Hs) as (dir & name & -> & Hn).
  unfold parent, path_div in E. rewrite removelast_last in E.
  apply app_inj_tail in E as [_ <-]. discriminate.
Qed.

End SingleFile.

(** X16: in single-file mode the manifest rewriter is entered exactly when
    the manifest file is there, whatever the shard rewriter returned; it
    works on the storage the shard rewriter left. *)
Theorem X16_single_file_manifest
        (S : Storage) (P : PathLib S) (L : StorageLaws S) (PL : PathLaws S P)
        (arg : path) (s : FS) :
  path_exists arg s = true ->
  is_file arg s = true ->
  suffix arg = ".safetensors" ->
  let index_path := path_div (parent arg) index_name in
  let s1 := snd (fst (clean_safetensors_file arg s)) in
  (manifest_rewriter_ran (snd (main arg s)) <-> path_exists index_path s = true)
  /\ snd (fst (main arg s))
     = (if path_exists index_path s
        then snd (fst (update_index_json index_path s1))
        else s1).
Proof.
  intros Hex Hf Hs index_path s1.
  rewrite main_cases, Hex, Hf, Hs, String.eqb_refl. cbn [andb].
  fold index_path.
  destruct (shard_frame arg index_path s (index_beside_shard arg Hs))
    as [_ Hframe].
  destruct (clean_safetensors_file_run arg s) as (o1 & Hrun & Hq1).
  assert (Hs1 : s1 = snd (shard_outcome arg s)) by (unfold s1; now rewrite Hrun).
  rewrite <- Hs1 in *. rewrite <- Hframe.
  rewrite bind_assoc, (bind_run _ _ _ _ _ _ Hrun), bind_assoc, bind_query.
  destruct (path_exists index_path s1).
  - rewrite bind_assoc.
    destruct (update_index_json_run index_path s1) as (o2 & Hup & Hran).
    assert (HK : exists r o3,
               bind (update_index_json index_path)
                 (fun _ => bind (ret tt)
                             (fun _ => print "Processing complete!")) s1
               = (r, snd (manifest_outcome index_path s1), (o2 ++ o3)%list)).
    { unfold bind, ret, print. rewrite Hup.
      destruct (fst (manifest_outcome index_path s1)); eauto.
      exists (Raise e), []. now rewrite app_nil_r. }
    destruct HK as (r & o3 & ->). rewrite Hup. cbn [fst snd].
    split; [|reflexivity]. split; [reflexivity|]. intros _.
    apply ran_app; right. apply ran_app; left. exact Hran.
  - rewrite bind_ret. cbn [fst snd print]. split; [|reflexivity].
    split; [|discriminate]. intros H. exfalso. revert H.
    apply quiet_not_ran, quiet_app; [exact Hq1|].
    repeat constructor.
Qed.

Lemma X16_witness :
  manifest_rewriter_ran
    (snd (main (P:=MemPaths.pathlib) Sample.shard2
            Sample2.stale_manifest_checkpoint))
  /\ Mem.load Sample.index
       (snd (fst (main (P:=MemPaths.pathlib) Sample.shard2
                    Sample2.stale_manifest_checkpoint)))
     = Ok (JObj [("metadata", JObj [("total_size", JInt 11)]);
                 ("weight_map",
                  JObj [("layer.0.weight",
                         JStr "model-00001-of-00002.safetensors");
                        ("a.weight",
                         JStr "model-00002-of-00002.safetensors")])]).
Proof.
  destruct (X16_single_file_manifest Mem.storage MemPaths.pathlib
              MemFacts.laws MemPathFacts.path_laws
              Sample.shard2 Sample2.stale_manifest_checkpoint
              eq_refl eq_refl eq_refl) as [Hran Hst].
  split; [now apply Hran|]. now rewrite Hst.
Defined.

(** X17: when [main] returns, its argument was an existing [.safetensors]
    file or an existing directory, and the last line it printed is the
    completion notice. *)
Theorem X17_main_completes
        (S : Storage) (P : PathLib S) (arg : path) (s : FS) :
  fst (fst (main arg s)) = Ok tt ->
  supported arg s = true
  /\ last (snd (main arg s)) "" = "Processing complete!".
Proof.
  rewrite main_cases. unfold supported.
  destruct (path_exists arg s); [|discriminate]. cbn [andb].
  destruct (is_file arg s && String.eqb (suffix arg) ".safetensors").
  - cbn [orb]. intros H. split; [reflexivity|]. now apply bind_print_last.
  - cbn [orb]. destruct (is_dir arg s); [|discriminate].
    intros H. split; [reflexivity|]. now apply bind_print_last.
Qed.

Lemma X17_witness :
  supported (P:=MemPaths.pathlib) Sample.dir Sample.checkpoint = true
  /\ last (snd (main (P:=MemPaths.pathlib) Sample.dir Sample.checkpoint)) ""
     = "Processing complete!".
Proof.
  apply (X17_main_completes Mem.storage MemPaths.pathlib
           Sample.dir Sample.checkpoint).
  reflexivity.
Defined.

(** ** Two more facts on the rewriters *)

(** X18: the shard rewriter writes to its own file only: whatever it
    returns, every other path exists or not as before and loads as a
    manifest as before. *)
Theorem X18_clean_touches_its_file_only
        (S : Storage) (L : StorageLaws S) (p q : path) (s : FS) :
  q <> p ->
  json_load q (snd (fst (clean_safetensors_file p s))) = json_load q s
  /\ path_exists q (snd (fst (clean_safetensors_file p s))) = path_exists q s.
Proof.
  intros Hq. rewrite clean_outcome. cbn [fst snd]. now apply shard_frame.
Qed.

Lemma X18_witness :
  Mem.load Sample.index
    (snd (fst (clean_safetensors_file (S:=Mem.storage)
                 Sample.shard1 Sample.checkpoint)))
  = Mem.load Sample.index Sample.checkpoint
  /\ Mem.exists_ Sample.index
       (snd (fst (clean_safetensors_file (S:=Mem.storage)
                    Sample.shard1 Sample.checkpoint)))
     = Mem.exists_ Sample.index Sample.checkpoint.
Proof.
  apply (X18_clean_touches_its_file_only Mem.storage MemFacts.laws
           Sample.shard1 Sample.index Sample.checkpoint).
  discriminate.
Defined.

(** X19: a container that was rewritten carries a metadata mapping, the one
    read before or the empty one: a container without metadata comes back
    with an empty mapping. *)
Theorem X19_metadata_written_back
        (S : Storage) (L : StorageLaws S) (p : path) (s : FS) (f : handle) :
  safe_open p s = Ok f ->
  fst (fst (clean_safetensors_file p s)) = Ok true ->
  exists f',
    safe_open p (snd (fst (clean_safetensors_file p s))) = Ok f'
    /\ h_metadata f'
       = Some (match h_metadata f with
               | Some m => m
               | None => []
               end).
Proof.
  intros Ho Ht. rewrite clean_outcome in *. cbn [fst snd] in *.
  injection Ht as Ht.
  destruct (shard_rewritten _ _ _ Ho Ht) as (entries & _ & _ & Hs).
  destruct (save_then_open _ _ _ _ _ Hs) as (f' & Ho' & Hm' & _).
  exists f'. split; [exact Ho'|]. rewrite Hm'.
  now destruct (h_metadata f) as [[|kv m]|].
Qed.

Lemma X19_witness :
  exists f',
    Mem.open_shard Sample.shard1
      (snd (fst (clean_safetensors_file (S:=Mem.storage)
                   Sample.shard1 Sample.marker_checkpoint))) = Ok f'
    /\ h_metadata f' = Some [].
Proof.
  apply (X19_metadata_written_back Mem.storage MemFacts.laws
           Sample.shard1 Sample.marker_checkpoint
           (Mem.handle_of None Sample.marker_tensors)); reflexivity.
Defined.

(** X20: the manifest rewriter reports a modification exactly when the
    file is there, loads as an object whose [weight_map] is an object, some
    key of it contains the marker, and [json_dump] returned. *)
Theorem X20_update_true_iff (S : Storage) (p : path) (s : FS) :
  fst (fst (update_index_json p s)) = Ok true
  <-> exists fields wm,
        path_exists p s = true
        /\ json_load p s = Ok (JObj fields)
        /\ dict_get "weight_map" fields = Some (JObj wm)
        /\ (exists k filename, In (k, filename) wm /\ has_marker k = true)
        /\ fst (json_dump (JObj (dict_set "weight_map"
                                          (JObj (renamed wm [])) fields)) p s)
           = Ok tt.
Proof.
  rewrite update_outcome. cbn [fst]. unfold manifest_outcome. split.
  - destruct (path_exists p s); [|discriminate].
    destruct (json_load p s) as [doc|]; [|discriminate].
    destruct doc as [| b | z | r | t | l | fields];
      try discriminate; unfold document_outcome; cbn [py_in].
    + destruct (PyStr.contains "weight_map" t); discriminate.
    + destruct (existsb (is_str "weight_map") l); discriminate.
    + unfold dict_mem, getitem.
      destruct (dict_get "weight_map" fields) as [v|] eqn:Hw; [|discriminate].
      destruct v as [| b | z | r | t | l | wm]; try discriminate.
      cbn [items setitem].
      destruct (existsb (fun kv => has_marker (fst kv)) wm) eqn:E;
        [|discriminate].
      destruct json_dump as [[[]|e] s'] eqn:Hd; [|discriminate].
      intros _. exists fields, wm.
      split; [reflexivity|]. split; [reflexivity|]. split; [exact Hw|].
      split; [|now rewrite Hd].
      apply existsb_exists in E as ([k v] & Hin & Hm). now exists k, v.
  - intros (fields & wm & -> & -> & Hw & (k & v & Hin & Hm) & Hd).
    rewrite (manifest_with_map _ _ _ _ Hw).
    replace (existsb (fun kv => has_marker (fst kv)) wm) with true.
    + cbn [fst]. now rewrite Hd.
    + symmetry. apply existsb_exists. now exists (k, v).
Qed.
